(** * Validation lab: Author and Post models and their HTTP handlers

    A shallow embedding of [server/models.py] and [server/app.py].

    - Python values that can reach the code (decoded JSON) are the type
      [pyval]; JSON floats are left out of the value domain.
    - A Python [str] is a [string]: a sequence of Unicode code points, lone
      surrogates included (the JSON decoder lets them through).  The class
      [\d] of the [re] module on a str pattern is the class of the decimal
      digits of the Unicode database (category Nd).  The database is the
      interpreter's, so it is a parameter, [unicode_database]; the
      theorems hold for every database, and the examples run on
      [unicode_14_0].
    - A raising computation is a value of [outcome]; the exceptions are
      the ones the code and the interpreter raise on these inputs.
    - The methods of class Author are in the modules [Author] (validators)
      and [AuthorModel] (attributes and constructor), those of class Post
      in [Post] and [PostModel].
    - The store is SQLite behind SQLAlchemy: two tables of rows, a session
      with its pending objects and its open transaction, and the INSERT
      and DELETE statements with the constraints the columns declare.
      What the driver makes of a value whose type is not the column's is
      left open: the routes take it as the parameters [coerce_text] and
      [coerce_integer].
    - [to_dict] is the rule-driven traversal of sqlalchemy_serializer,
      bounded by a recursion depth. *)

From Stdlib Require Import List ZArith NArith Bool Lia Arith.
From Stdlib Require Import DecimalString HexadecimalString.
From Stdlib.Strings Require Byte Ascii String.
Import ListNotations.

Set Implicit Arguments.

(** ** Python strings

    A character is its code point.  A literal between double quotes stands
    for the string of its ASCII characters. *)

Definition char : Type := N.

Inductive string : Type :=
| EmptyString
| String (c : char) (s : string).

Fixpoint string_of_chars (l : list char) : string :=
  match l with
  | [] => EmptyString
  | c :: rest => String c (string_of_chars rest)
  end.

Fixpoint chars (s : string) : list char :=
  match s with
  | EmptyString => []
  | String c rest => c :: chars rest
  end.

Definition literal_of_bytes (l : list Byte.byte) : option string :=
  if forallb (fun b => (Byte.to_N b <? 128)%N) l
  then Some (string_of_chars (map Byte.to_N l))
  else None.

Fixpoint bytes_of_chars (l : list char) : option (list Byte.byte) :=
  match l with
  | [] => Some []
  | c :: rest =>
      if (c <? 128)%N then
        match Byte.of_N c, bytes_of_chars rest with
        | Some b, Some bs => Some (b :: bs)
        | _, _ => None
        end
      else None
  end.

Definition bytes_of_literal (s : string) : option (list Byte.byte) :=
  bytes_of_chars (chars s).

Declare Scope pystr_scope.
Delimit Scope pystr_scope with str.
Bind Scope pystr_scope with string.
String Notation string literal_of_bytes bytes_of_literal : pystr_scope.

Module String.

(** [len(s)]: the number of code points. *)
Fixpoint length (s : string) : nat :=
  match s with
  | EmptyString => 0
  | String _ rest => S (length rest)
  end.

(** [a == b] *)
Fixpoint eqb (a b : string) : bool :=
  match a, b with
  | EmptyString, EmptyString => true
  | String c a', String d b' => (c =? d)%N && eqb a' b'
  | _, _ => false
  end.

(** [a + b] *)
Fixpoint append (a b : string) : string :=
  match a with
  | EmptyString => b
  | String c a' => String c (append a' b)
  end.

(** [sep.join(l)] *)
Fixpoint concat (sep : string) (l : list string) : string :=
  match l with
  | [] => EmptyString
  | [x] => x
  | x :: rest => append x (append sep (concat sep rest))
  end.

End String.

Infix "++" := String.append (right associativity, at level 60) : pystr_scope.
Infix "=?" := String.eqb (at level 70) : pystr_scope.
Open Scope pystr_scope.
Open Scope list_scope.

Definition string_dec (a b : string) : {a = b} + {a <> b}.
Proof. decide equality. apply N.eq_dec. Defined.

(** [hay.startswith(needle)] *)
Fixpoint prefix (needle hay : string) : bool :=
  match needle, hay with
  | EmptyString, _ => true
  | String c needle', String d hay' => (c =? d)%N && prefix needle' hay'
  | String _ _, EmptyString => false
  end.

(** The characters of a string of the Standard Library, for the decimal
    and hexadecimal printers. *)
Definition of_ascii_string (s : Stdlib.Strings.String.string) : string :=
  string_of_chars
    (map Ascii.N_of_ascii (Stdlib.Strings.String.list_ascii_of_string s)).

(** [str(n)] and [format(n, 'x')] for a natural number. *)
Definition decimal (n : N) : string :=
  of_ascii_string (DecimalString.NilZero.string_of_uint (N.to_uint n)).

Definition hexadecimal (n : N) : string :=
  of_ascii_string (HexadecimalString.NilZero.string_of_uint (N.to_hex_uint n)).

(** ** Python values and exceptions *)

#[warnings="-register-all"]
Inductive pyval : Type :=
| PNone
| PBool (b : bool)
| PInt (z : Z)
| PStr (s : string)
| PList (l : list pyval)
| PDict (d : list (string * pyval)).

Inductive exn : Type :=
| ValueError (msg : string)
| TypeError (msg : string)
| AttributeError (msg : string)
| IntegrityError (msg : string)
| OverflowError (msg : string)
| DBAPIError (msg : string)
| UnicodeEncodeError (msg : string)   (* a subclass of ValueError *)
| InternalServerError                 (* werkzeug.exceptions *)
| RecursionError.

(** [str(e)] *)
Definition exn_str (e : exn) : string :=
  match e with
  | ValueError m | TypeError m | AttributeError m
  | IntegrityError m | OverflowError m | DBAPIError m
  | UnicodeEncodeError m => m
  | InternalServerError =>
      "500 Internal Server Error: The server encountered an internal error and was unable to complete your request. Either the server is overloaded or there is an error in the application."
  | RecursionError => "maximum recursion depth exceeded"
  end.

Inductive outcome (A : Type) : Type :=
| Return (a : A)
| Raise (e : exn).

Arguments Return {A} a.
Arguments Raise {A} e.

Definition bind {A B : Type} (c : outcome A) (k : A -> outcome B) : outcome B :=
  match c with
  | Return a => k a
  | Raise e => Raise e
  end.

Declare Scope py_scope.
Delimit Scope py_scope with py.
Notation "x <- c ;; k" := (bind c (fun x => k))
  (at level 61, c at next level, right associativity) : py_scope.
Open Scope py_scope.

(** ** Built-in operations used by the validators *)

(** [type(v).__name__], for the interpreter's messages. *)
Definition type_name (v : pyval) : string :=
  match v with
  | PNone => "NoneType"
  | PBool _ => "bool"
  | PInt _ => "int"
  | PStr _ => "str"
  | PList _ => "list"
  | PDict _ => "dict"
  end.

(** [bool(v)]: the truth value tested by [if v] and [not v]. *)
Definition truthy (v : pyval) : bool :=
  match v with
  | PNone => false
  | PBool b => b
  | PInt z => negb (z =? 0)%Z
  | PStr s => negb (s =? "")
  | PList l => match l with [] => false | _ :: _ => true end
  | PDict d => match d with [] => false | _ :: _ => true end
  end.

(** The keys of a dict, each once, for an association list that may repeat
    a key. *)
Definition dict_keys (d : list (string * pyval)) : list string :=
  nodup string_dec (map fst d).

(** [len(v)] *)
Definition py_len (v : pyval) : outcome nat :=
  match v with
  | PStr s => Return (String.length s)
  | PList l => Return (List.length l)
  | PDict d => Return (List.length (dict_keys d))
  | _ => Raise (TypeError ("object of type '" ++ type_name v ++ "' has no len()"))
  end.

(** [needle in hay] for two strings: [needle] occurs in [hay] at some
    position. *)
Fixpoint contains (needle hay : string) : bool :=
  prefix needle hay ||
  match hay with
  | EmptyString => false
  | String _ rest => contains needle rest
  end.

(** [s == v] for a string [s]. *)
Definition str_eq (s : string) (v : pyval) : bool :=
  match v with
  | PStr t => s =? t
  | _ => false
  end.

(** [needle in container] for a string [needle]: substring test on a str,
    element test on a list, key test on a dict, [TypeError] otherwise. *)
Definition str_in (needle : string) (container : pyval) : outcome bool :=
  match container with
  | PStr hay => Return (contains needle hay)
  | PList l => Return (existsb (str_eq needle) l)
  | PDict d => Return (existsb (String.eqb needle) (map fst d))
  | _ => Raise (TypeError ("argument of type '" ++ type_name container
                           ++ "' is not iterable"))
  end.

(** [any(keyword in title for keyword in keywords)]: the generator is
    consumed in order and stops at the first true test. *)
Fixpoint any_in (keywords : list string) (title : pyval) : outcome bool :=
  match keywords with
  | [] => Return false
  | keyword :: rest =>
      found <- str_in keyword title ;;
      if found then Return true else any_in rest title
  end.

(** [v in candidates] for a list of string literals. *)
Definition in_str_list (v : pyval) (candidates : list string) : bool :=
  existsb (fun c => str_eq c v) candidates.

(** ** The fragment of [re] used by the phone number rule *)

Inductive regex : Type :=
| Digit                          (* \d *)
| Repeat (r : regex) (n : nat).  (* r{n} *)

(** What the code takes from the Unicode database of the interpreter: the
    decimal digits (category Nd).  Every script has its ten digits at
    consecutive code points, from its zero to its nine, so the database is
    given by the code points of the zeros; no digit is a surrogate. *)
Class unicode_database : Type := {
  decimal_zeros : list char;
  decimal_zeros_scalar :
    forallb (fun zero => (zero + 10 <=? 0xD800)%N || (0xDFFF <? zero)%N)
      decimal_zeros = true
}.

(** The database of Unicode 14.0, which CPython 3.11 carries.  An earlier
    version has some zeros less, a later one some more. *)
#[export] Instance unicode_14_0 : unicode_database := {|
  decimal_zeros :=
    [0x0030; 0x0660; 0x06F0; 0x07C0; 0x0966; 0x09E6; 0x0A66; 0x0AE6;
     0x0B66; 0x0BE6; 0x0C66; 0x0CE6; 0x0D66; 0x0DE6; 0x0E50; 0x0ED0;
     0x0F20; 0x1040; 0x1090; 0x17E0; 0x1810; 0x1946; 0x19D0; 0x1A80;
     0x1A90; 0x1B50; 0x1BB0; 0x1C40; 0x1C50; 0xA620; 0xA8D0; 0xA900;
     0xA9D0; 0xA9F0; 0xAA50; 0xABF0; 0xFF10; 0x104A0; 0x10D30; 0x11066;
     0x110F0; 0x11136; 0x111D0; 0x112F0; 0x11450; 0x114D0; 0x11650;
     0x116C0; 0x11730; 0x118E0; 0x11950; 0x11C50; 0x11D50; 0x11DA0;
     0x16A60; 0x16AC0; 0x16B50; 0x1D7CE; 0x1D7D8; 0x1D7E2; 0x1D7EC;
     0x1D7F6; 0x1E140; 0x1E2F0; 0x1E950; 0x1FBF0]%N;
  decimal_zeros_scalar := eq_refl
|}.

(** [\d] on a str pattern without re.ASCII: a decimal digit of any
    script. *)
Definition is_digit {U : unicode_database} (c : char) : bool :=
  existsb (fun zero => (zero <=? c)%N && (c <? zero + 10)%N) decimal_zeros.

Fixpoint iterate (step : string -> list string) (n : nat) (starts : list string)
  : list string :=
  match n with
  | O => starts
  | S m => iterate step m (flat_map step starts)
  end.

(** [rmatch r s]: what is left of [s] after each way of matching [r] at
    its start. *)
Fixpoint rmatch {U : unicode_database} (r : regex) (s : string)
  : list string :=
  match r with
  | Digit =>
      match s with
      | String c rest => if is_digit c then [rest] else []
      | EmptyString => []
      end
  | Repeat r' n => iterate (rmatch r') n [s]
  end.

(** [re.fullmatch(pattern, v)], as the truth value of its result. *)
Definition fullmatch {U : unicode_database} (pattern : regex) (v : pyval)
  : outcome bool :=
  match v with
  | PStr s => Return (existsb (String.eqb "") (rmatch pattern s))
  | _ => Raise (TypeError "expected string or bytes-like object")
  end.

(** ** models.py: the validators *)

Module Author.

Definition validate_name (key : string) (name : pyval) : outcome pyval :=
  if negb (truthy name) then Raise (ValueError "Author must have a name.")
  else Return name.

(** r'\d{10}' *)
Definition phone_pattern : regex := Repeat Digit 10.

Definition validate_phone_number {U : unicode_database} (key : string)
  (phone_number : pyval) : outcome pyval :=
  match phone_number with
  | PNone => Return phone_number
  | _ =>
      m <- fullmatch phone_pattern phone_number ;;
      if negb m then Raise (ValueError "Phone number must be exactly ten digits.")
      else Return phone_number
  end.

End Author.

Module Post.

Definition validate_content (key : string) (content : pyval) : outcome pyval :=
  if negb (truthy content) then
    Raise (ValueError "Post content must be at least 250 characters long.")
  else
    n <- py_len content ;;
    if (n <? 250)%nat then
      Raise (ValueError "Post content must be at least 250 characters long.")
    else Return content.

Definition validate_summary (key : string) (summary : pyval) : outcome pyval :=
  if truthy summary then
    n <- py_len summary ;;
    if (250 <? n)%nat then Raise (ValueError "Post summary cannot exceed 250 characters.")
    else Return summary
  else Return summary.

Definition categories : list string := ["Fiction"; "Non-Fiction"].

Definition validate_category (key : string) (category : pyval) : outcome pyval :=
  if negb (in_str_list category categories) then
    Raise (ValueError "Post category must be 'Fiction' or 'Non-Fiction'.")
  else Return category.

Definition clickbait_keywords : list string :=
  ["Won't Believe"; "Secret"; "Top"; "Guess"].

Definition validate_title (key : string) (title : pyval) : outcome pyval :=
  found <- any_in clickbait_keywords title ;;
  if negb found then
    Raise (ValueError
      "Post title must contain one of: 'Won't Believe', 'Secret', 'Top', 'Guess'.")
  else Return title.

End Post.

(** ** The storage: rows, tables and what SQLite stores

    The engine is SQLite (app.py sets the URI [sqlite:///app.db]).  A stored
    column value is NULL, an INTEGER or a TEXT. *)

Inductive sqlval : Type :=
| SqlNull
| SqlInteger (z : Z)
| SqlText (s : string).

Definition sqlval_eqb (a b : sqlval) : bool :=
  match a, b with
  | SqlNull, SqlNull => true
  | SqlInteger x, SqlInteger y => (x =? y)%Z
  | SqlText x, SqlText y => x =? y
  | _, _ => false
  end.

Definition is_null (v : sqlval) : bool :=
  match v with SqlNull => true | _ => false end.

(** A column value read back into Python. *)
Definition of_sql (v : sqlval) : pyval :=
  match v with
  | SqlNull => PNone
  | SqlInteger z => PInt z
  | SqlText s => PStr s
  end.

(** Table [authors]. *)
Record author_row : Type := {
  a_id : Z;
  a_name : sqlval;
  a_phone_number : sqlval;
  a_created_at : sqlval;
  a_updated_at : sqlval
}.

(** Table [posts]. *)
Record post_row : Type := {
  p_id : Z;
  p_title : sqlval;
  p_content : sqlval;
  p_category : sqlval;
  p_summary : sqlval;
  p_created_at : sqlval;
  p_updated_at : sqlval;
  p_author_id : sqlval
}.

Record database : Type := {
  authors : list author_row;
  posts : list post_row
}.

Inductive entity : Type :=
| EAuthor (r : author_row)
| EPost (r : post_row).

(** The rowid SQLite gives to the next row of a table whose rowids are
    [ids]: one more than the largest, 1 for an empty table.  (This is
    SQLite's choice as long as the largest rowid is positive and below
    2^63 - 1, which holds of every table that only these routes fill.) *)
Definition next_id (ids : list Z) : Z :=
  Z.succ (fold_right Z.max 0%Z ids).

(** [PRAGMA foreign_keys]: SQLite checks FOREIGN KEY clauses only on a
    connection that has turned the pragma on, and no line of app.py or
    models.py does. *)
Definition foreign_keys : bool := false.

(** The posts an author owns (the relationship [Author.posts]) and the
    author a post refers to (its backref [Post.author]). *)
Definition posts_of (db : database) (a : author_row) : list post_row :=
  filter (fun p => sqlval_eqb (p_author_id p) (SqlInteger (a_id a))) (posts db).

Definition author_of (db : database) (p : post_row) : option author_row :=
  find (fun a => sqlval_eqb (p_author_id p) (SqlInteger (a_id a))) (authors db).

(** ** models.py: the entities *)

(** db.relationship('Post', backref='author', lazy=True,
                    cascade='all, delete-orphan') *)
Record relationship : Type := {
  rel_target : string;
  rel_backref : string;
  rel_cascade : list string
}.

Definition cascades_delete (rel : relationship) : bool :=
  existsb (String.eqb "all") (rel_cascade rel)
  || existsb (String.eqb "delete") (rel_cascade rel).

(** A rule of [serialize_rules]: the dotted path after the minus sign. *)
Definition path : Type := list string.

Module AuthorModel.

(** A new [Author] object: the attributes its constructor has set. *)
Record t : Type := { name : pyval; phone_number : pyval }.

Definition posts : relationship :=
  {| rel_target := "Post"; rel_backref := "author";
     rel_cascade := ["all"; "delete-orphan"] |}.

(** ('-posts.author',) *)
Definition serialize_rules : list path := [["posts"; "author"]].

(** Author(name=..., phone_number=...): the keyword arguments are
    assigned in order and every assignment runs the field's validator. *)
Definition new {U : unicode_database} (name phone_number : pyval)
  : outcome t :=
  n <- Author.validate_name "name" name ;;
  ph <- Author.validate_phone_number "phone_number" phone_number ;;
  Return {| name := n; phone_number := ph |}.

End AuthorModel.

Module PostModel.

Record t : Type := {
  title : pyval;
  content : pyval;
  summary : pyval;
  category : pyval;
  author_id : pyval
}.

(** ('-author.posts',) *)
Definition serialize_rules : list path := [["author"; "posts"]].

(** Post(title=..., content=..., summary=..., category=..., author_id=...) *)
Definition new (title content summary category author_id : pyval) : outcome t :=
  t' <- Post.validate_title "title" title ;;
  c <- Post.validate_content "content" content ;;
  s <- Post.validate_summary "summary" summary ;;
  g <- Post.validate_category "category" category ;;
  Return {| title := t'; content := c; summary := s; category := g;
            author_id := author_id |}.

End PostModel.

Inductive object : Type :=
| NewAuthor (o : AuthorModel.t)
| NewPost (o : PostModel.t).

(** ** sqlalchemy_serializer: [to_dict] driven by negative rules *)

Inductive attr : Type :=
| Scalar (v : pyval)            (* a column *)
| One (e : option entity)       (* a many-to-one relationship *)
| Many (es : list entity).      (* a one-to-many relationship *)

(** The serializable attributes of a persistent object, with the values
    [getattr] gives: the columns, then the relationship or its backref. *)
Definition attributes (db : database) (e : entity) : list (string * attr) :=
  match e with
  | EAuthor a =>
      [("id", Scalar (PInt (a_id a)));
       ("name", Scalar (of_sql (a_name a)));
       ("phone_number", Scalar (of_sql (a_phone_number a)));
       ("created_at", Scalar (of_sql (a_created_at a)));
       ("updated_at", Scalar (of_sql (a_updated_at a)));
       ("posts", Many (map EPost (posts_of db a)))]
  | EPost p =>
      [("id", Scalar (PInt (p_id p)));
       ("title", Scalar (of_sql (p_title p)));
       ("content", Scalar (of_sql (p_content p)));
       ("category", Scalar (of_sql (p_category p)));
       ("summary", Scalar (of_sql (p_summary p)));
       ("created_at", Scalar (of_sql (p_created_at p)));
       ("updated_at", Scalar (of_sql (p_updated_at p)));
       ("author_id", Scalar (of_sql (p_author_id p)));
       ("author", One (option_map EAuthor (author_of db p)))]
  end.

Definition serialize_rules (e : entity) : list path :=
  match e with
  | EAuthor _ => AuthorModel.serialize_rules
  | EPost _ => PostModel.serialize_rules
  end.

Fixpoint path_eqb (p q : path) : bool :=
  match p, q with
  | [], [] => true
  | a :: p', b :: q' => (a =? b) && path_eqb p' q'
  | _, _ => false
  end.

(** A key is left out when a rule names exactly it. *)
Definition is_included (schema : list path) (key : string) : bool :=
  negb (existsb (path_eqb [key]) schema).

(** The rules that apply below [key]: those that start with it, without
    their first step. *)
Definition fork (schema : list path) (key : string) : list path :=
  flat_map (fun p =>
              match p with
              | k :: (_ :: _) as rest => if k =? key then [rest] else []
              | _ => []
              end) schema.

Fixpoint map_outcome {A B : Type} (f : A -> outcome B) (l : list A)
  : outcome (list B) :=
  match l with
  | [] => Return []
  | x :: rest =>
      y <- f x ;;
      ys <- map_outcome f rest ;;
      Return (y :: ys)
  end.

Definition serialize_attr (nested : entity -> outcome pyval) (a : attr)
  : outcome pyval :=
  match a with
  | Scalar v => Return v
  | One None => Return PNone
  | One (Some e) => nested e
  | Many es => l <- map_outcome nested es ;; Return (PList l)
  end.

Fixpoint serialize_items (nested : string -> entity -> outcome pyval)
  (schema : list path) (items : list (string * attr))
  : outcome (list (string * pyval)) :=
  match items with
  | [] => Return []
  | (key, a) :: rest =>
      if is_included schema key then
        v <- serialize_attr (nested key) a ;;
        vs <- serialize_items nested schema rest ;;
        Return ((key, v) :: vs)
      else serialize_items nested schema rest
  end.

Section Serializer.

(** The [serialize_rules] attribute of each model class. *)
Variable rules_of : entity -> list path.

(** Serializing a model: its own rules extend the rules that came down
    from the parent, and every included attribute is serialized under
    the forked rules.  [fuel] bounds the nesting depth, as the
    interpreter's recursion limit does. *)
Fixpoint serialize_with (fuel : nat) (db : database) (rules : list path)
  (e : entity) : outcome pyval :=
  match fuel with
  | O => Raise RecursionError
  | S fuel' =>
      let schema := rules ++ rules_of e in
      items <- serialize_items
                 (fun key e' => serialize_with fuel' db (fork schema key) e')
                 schema (attributes db e) ;;
      Return (PDict items)
  end.

End Serializer.

Definition serialize_model : nat -> database -> list path -> entity -> outcome pyval :=
  serialize_with serialize_rules.

Definition recursion_limit : nat := 1000.

(** [obj.to_dict()] *)
Definition to_dict (db : database) (e : entity) : outcome pyval :=
  serialize_model recursion_limit db [] e.

(** ** The session: db.session.add, commit, rollback, delete *)

Inductive obj_state : Type :=
| Pending (o : object)        (* added, not yet flushed *)
| Persistent (e : entity)     (* flushed: it has a row *)
| Deleted (e : entity).       (* marked by session.delete *)

Record session : Type := {
  committed : database;       (* what is durable *)
  working : database;         (* what the open transaction sees *)
  objects : list obj_state
}.

(** The session a request starts with, and what is durable when the
    request is over. *)
Definition begin (db : database) : session :=
  {| committed := db; working := db; objects := [] |}.

Definition M (A : Type) : Type := session -> outcome A * session.

Definition ret {A : Type} (a : A) : M A := fun s => (Return a, s).

Definition bindM {A B : Type} (c : M A) (k : A -> M B) : M B :=
  fun s =>
    match c s with
    | (Return a, s') => k a s'
    | (Raise e, s') => (Raise e, s')
    end.

Definition lift {A : Type} (c : outcome A) : M A := fun s => (c, s).

Notation "x <~ c ;; k" := (bindM c (fun x => k))
  (at level 61, c at next level, right associativity) : py_scope.
Notation "c ;;; k" := (bindM c (fun _ => k))
  (at level 61, right associativity) : py_scope.

Definition in_int64 (z : Z) : bool :=
  ((- 2 ^ 63 <=? z) && (z <? 2 ^ 63))%Z.

Definition is_persistent (o : obj_state) : bool :=
  match o with Persistent _ => true | _ => false end.

(** The driver binds a str as UTF-8, which has no encoding for a
    surrogate (U+D800 to U+DFFF). *)
Definition is_surrogate (c : char) : bool :=
  ((0xD800 <=? c) && (c <=? 0xDFFF))%N.

Fixpoint leading_surrogates (l : list char) : nat :=
  match l with
  | c :: rest => if is_surrogate c then S (leading_surrogates rest) else 0
  | [] => 0
  end.

(** The first run of surrogates of [l]: its first character, the position
    where it starts (counted from [i]) and its length. *)
Fixpoint first_surrogates (i : N) (l : list char) : option (char * N * nat) :=
  match l with
  | [] => None
  | c :: rest =>
      if is_surrogate c then Some (c, i, S (leading_surrogates rest))
      else first_surrogates (N.succ i) rest
  end.

(** [str(e)] for the UnicodeEncodeError of the strict UTF-8 encoder. *)
Definition surrogates_not_allowed (run : char * N * nat) : string :=
  match run with
  | (c, start, 1%nat) =>
      "'utf-8' codec can't encode character '\u" ++ hexadecimal c
      ++ "' in position " ++ decimal start ++ ": surrogates not allowed"
  | (_, start, n) =>
      "'utf-8' codec can't encode characters in position " ++ decimal start
      ++ "-" ++ decimal (start + N.of_nat n - 1)
      ++ ": surrogates not allowed"
  end.

(** [s.encode('utf-8')], as far as it can fail. *)
Definition encode_utf8 (s : string) : outcome string :=
  match first_surrogates 0 (chars s) with
  | None => Return s
  | Some run => Raise (UnicodeEncodeError (surrogates_not_allowed run))
  end.

Section Gateway.

(** What the driver and SQLite make of a value whose Python type is not
    the column's: a converted value, or a refusal. *)
Variables coerce_text coerce_integer : pyval -> outcome sqlval.

(** A parameter bound to a String column. *)
Definition to_text (v : pyval) : outcome sqlval :=
  match v with
  | PNone => Return SqlNull
  | PStr s => t <- encode_utf8 s ;; Return (SqlText t)
  | _ => coerce_text v
  end.

(** A parameter bound to an Integer column. *)
Definition to_integer (v : pyval) : outcome sqlval :=
  match v with
  | PNone => Return SqlNull
  | PInt z =>
      if in_int64 z then Return (SqlInteger z)
      else Raise (OverflowError
                    "Python int too large to convert to SQLite INTEGER")
  | _ => coerce_integer v
  end.

(** INSERT INTO authors: name is NOT NULL and UNIQUE. *)
Definition insert_author (now : string) (o : AuthorModel.t) (db : database)
  : outcome (author_row * database) :=
  name <- to_text (AuthorModel.name o) ;;
  phone_number <- to_text (AuthorModel.phone_number o) ;;
  if is_null name then
    Raise (IntegrityError "NOT NULL constraint failed: authors.name")
  else if existsb (sqlval_eqb name) (map a_name (authors db)) then
    Raise (IntegrityError "UNIQUE constraint failed: authors.name")
  else
    let row := {| a_id := next_id (map a_id (authors db));
                  a_name := name;
                  a_phone_number := phone_number;
                  a_created_at := SqlText now;
                  a_updated_at := SqlNull |} in
    Return (row, {| authors := authors db ++ [row]; posts := posts db |}).

Definition references_author (db : database) (author_id : sqlval) : bool :=
  existsb (fun a => sqlval_eqb author_id (SqlInteger (a_id a))) (authors db).

(** INSERT INTO posts: title and author_id are NOT NULL; author_id is a
    FOREIGN KEY to authors.id, checked when [fk] is on. *)
Definition insert_post (fk : bool) (now : string) (o : PostModel.t)
  (db : database) : outcome (post_row * database) :=
  title <- to_text (PostModel.title o) ;;
  content <- to_text (PostModel.content o) ;;
  category <- to_text (PostModel.category o) ;;
  summary <- to_text (PostModel.summary o) ;;
  author_id <- to_integer (PostModel.author_id o) ;;
  if is_null title then
    Raise (IntegrityError "NOT NULL constraint failed: posts.title")
  else if is_null author_id then
    Raise (IntegrityError "NOT NULL constraint failed: posts.author_id")
  else if fk && negb (references_author db author_id) then
    Raise (IntegrityError "FOREIGN KEY constraint failed")
  else
    let row := {| p_id := next_id (map p_id (posts db));
                  p_title := title;
                  p_content := content;
                  p_category := category;
                  p_summary := summary;
                  p_created_at := SqlText now;
                  p_updated_at := SqlNull;
                  p_author_id := author_id |} in
    Return (row, {| authors := authors db; posts := posts db ++ [row] |}).

Definition insert (now : string) (o : object) (db : database)
  : outcome (entity * database) :=
  match o with
  | NewAuthor a =>
      r <- insert_author now a db ;; Return (EAuthor (fst r), snd r)
  | NewPost p =>
      r <- insert_post foreign_keys now p db ;; Return (EPost (fst r), snd r)
  end.

(** Deleting an author through the unit of work.  With a delete cascade on
    the relationship its posts are deleted with it; without one they are
    detached by setting their author_id to NULL, which the NOT NULL
    column refuses. *)
Definition delete_author (rel : relationship) (a : author_row) (db : database)
  : outcome database :=
  let owned p := sqlval_eqb (p_author_id p) (SqlInteger (a_id a)) in
  let others := filter (fun r => negb (a_id r =? a_id a)%Z) (authors db) in
  if cascades_delete rel then
    Return {| authors := others;
              posts := filter (fun p => negb (owned p)) (posts db) |}
  else if existsb owned (posts db) then
    Raise (IntegrityError "NOT NULL constraint failed: posts.author_id")
  else Return {| authors := others; posts := posts db |}.

Definition delete_post (p : post_row) (db : database) : outcome database :=
  Return {| authors := authors db;
            posts := filter (fun r => negb (p_id r =? p_id p)%Z) (posts db) |}.

Definition delete (e : entity) (db : database) : outcome database :=
  match e with
  | EAuthor a => delete_author AuthorModel.posts a db
  | EPost p => delete_post p db
  end.

(** The flush: the pending objects are inserted, then the deleted ones
    are deleted.  It stops at the first statement that fails. *)
Fixpoint flush_new (now : string) (objs : list obj_state) (db : database)
  : outcome (list obj_state * database) :=
  match objs with
  | [] => Return ([], db)
  | Pending o :: rest =>
      r <- insert now o db ;;
      r' <- flush_new now rest (snd r) ;;
      Return (Persistent (fst r) :: fst r', snd r')
  | other :: rest =>
      r' <- flush_new now rest db ;;
      Return (other :: fst r', snd r')
  end.

Fixpoint flush_deleted (objs : list obj_state) (db : database)
  : outcome (list obj_state * database) :=
  match objs with
  | [] => Return ([], db)
  | Deleted e :: rest =>
      db' <- delete e db ;;
      flush_deleted rest db'
  | other :: rest =>
      r' <- flush_deleted rest db ;;
      Return (other :: fst r', snd r')
  end.

Definition flush (now : string) (objs : list obj_state) (db : database)
  : outcome (list obj_state * database) :=
  r <- flush_new now objs db ;;
  flush_deleted (fst r) (snd r).

(** db.session.add(obj); the result stands for the reference the caller
    keeps to the object. *)
Definition session_add (o : object) : M nat :=
  fun s => (Return (List.length (objects s)),
            {| committed := committed s; working := working s;
               objects := objects s ++ [Pending o] |}).

(** db.session.delete(obj) *)
Definition session_delete (e : entity) : M unit :=
  fun s => (Return tt,
            {| committed := committed s; working := working s;
               objects := objects s ++ [Deleted e] |}).

(** db.session.commit(): when the flush fails the transaction is undone
    and the exception leaves the session with its objects still
    attached. *)
Definition session_commit (now : string) : M unit :=
  fun s =>
    match flush now (objects s) (working s) with
    | Return (objs, db) =>
        (Return tt, {| committed := db; working := db; objects := objs |})
    | Raise e =>
        (Raise e, {| committed := committed s; working := committed s;
                     objects := objects s |})
    end.

(** db.session.rollback(): what was not committed is dropped. *)
Definition rollback (s : session) : session :=
  {| committed := committed s; working := committed s;
     objects := filter is_persistent (objects s) |}.

Definition session_rollback : M unit := fun s => (Return tt, rollback s).

(** [obj.to_dict()] on the object a call of [session_add] returned. *)
Definition object_to_dict (ref : nat) : M pyval :=
  fun s =>
    match nth_error (objects s) ref with
    | Some (Persistent e) => (to_dict (working s) e, s)
    | _ => (Raise (DBAPIError "object is not persistent"), s)
    end.

End Gateway.

(** ** app.py: responses and error handlers *)

Record response : Type := { status : nat; body : pyval }.

Definition make_response (body : pyval) (status : nat) : response :=
  {| status := status; body := body |}.

Definition jsonify (v : pyval) : pyval := v.

(** What an error handler is called with: Flask passes the exception, the
    routes below pass a text. *)
Inductive error_arg : Type :=
| ErrStr (s : string)
| ErrExn (e : exn).

Definition not_found (error : error_arg) : response :=
  let message := match error with
                 | ErrExn e => exn_str e
                 | ErrStr _ => "Resource not found"
                 end in
  make_response (jsonify (PDict [("error", PStr message)])) 404.

Definition bad_request (error : error_arg) : response :=
  let message := match error with
                 | ErrExn e => exn_str e
                 | ErrStr _ => "Bad Request"
                 end in
  make_response (jsonify (PDict [("error", PStr message)])) 400.

Definition internal_server_error (error : error_arg) : response :=
  let message := match error with
                 | ErrExn e => exn_str e
                 | ErrStr _ => "Internal Server Error"
                 end in
  make_response (jsonify (PDict [("error", PStr message)])) 500.

(** [d.get(key)] on the decoded body. *)
Fixpoint lookup (key : string) (d : list (string * pyval)) : option pyval :=
  match d with
  | [] => None
  | (k, v) :: rest => if k =? key then Some v else lookup key rest
  end.

Definition dict_get (data : pyval) (key : string) : outcome pyval :=
  match data with
  | PDict d => Return (match lookup key d with Some v => v | None => PNone end)
  | _ => Raise (AttributeError ("'" ++ type_name data
                                ++ "' object has no attribute 'get'"))
  end.

(** A route: it answers and leaves a session behind. *)
Definition route : Type := session -> response * session.

Definition respond (r : response) : route := fun s => (r, s).

(** try: body / except e: handler *)
Definition try_except (body : M response) (handler : exn -> route) : route :=
  fun s =>
    match body s with
    | (Return r, s') => (r, s')
    | (Raise e, s') => handler e s'
    end.

(** db.session.rollback(); return r *)
Definition rollback_then (r : response) : route :=
  fun s => (r, rollback s).

(** The except clauses of create_author, in the order of the source.  The
    clause for ValueError takes its subclasses with it. *)
Definition create_author_except (e : exn) : route :=
  match e with
  | ValueError _ | UnicodeEncodeError _ =>
      rollback_then (bad_request (ErrStr (exn_str e)))
  | IntegrityError _ =>
      rollback_then (bad_request (ErrStr "Author with this name already exists."))
  | _ => rollback_then (internal_server_error (ErrStr (exn_str e)))
  end.

(** The except clauses of create_post. *)
Definition create_post_except (e : exn) : route :=
  match e with
  | ValueError _ | UnicodeEncodeError _ =>
      rollback_then (bad_request (ErrStr (exn_str e)))
  | IntegrityError _ =>
      rollback_then
        (bad_request (ErrStr "Failed to create post. Ensure author_id is valid."))
  | _ => rollback_then (internal_server_error (ErrStr (exn_str e)))
  end.

Section Routes.

Context {U : unicode_database}.
Variables coerce_text coerce_integer : pyval -> outcome sqlval.

(** POST /authors; [data] is request.get_json(). *)
Definition create_author (now : string) (data : pyval) : route :=
  if negb (truthy data) then
    respond (bad_request (ErrStr "No input data provided."))
  else
    try_except
      (name <~ lift (dict_get data "name") ;;
       phone_number <~ lift (dict_get data "phone_number") ;;
       new_author <~ lift (AuthorModel.new name phone_number) ;;
       ref <~ session_add (NewAuthor new_author) ;;
       session_commit coerce_text coerce_integer now ;;;
       d <~ object_to_dict ref ;;
       ret (make_response (jsonify d) 201))
      create_author_except.

(** POST /posts *)
Definition create_post (now : string) (data : pyval) : route :=
  if negb (truthy data) then
    respond (bad_request (ErrStr "No input data provided."))
  else
    try_except
      (title <~ lift (dict_get data "title") ;;
       content <~ lift (dict_get data "content") ;;
       summary <~ lift (dict_get data "summary") ;;
       category <~ lift (dict_get data "category") ;;
       author_id <~ lift (dict_get data "author_id") ;;
       new_post <~ lift (PostModel.new title content summary category author_id) ;;
       ref <~ session_add (NewPost new_post) ;;
       session_commit coerce_text coerce_integer now ;;;
       d <~ object_to_dict ref ;;
       ret (make_response (jsonify d) 201))
      create_post_except.

(** A whole request: the route runs in a fresh session, and what the
    session committed is what the next request finds. *)
Definition serve (r : route) (db : database) : response * database :=
  let (resp, s) := r (begin db) in (resp, committed s).

(** The unit of work behind "deleting an Author": session.delete(author)
    followed by session.commit().  No route calls it. *)
Definition delete_and_commit (now : string) (a : author_row) : M unit :=
  session_delete (EAuthor a) ;;; session_commit coerce_text coerce_integer now.

End Routes.

(** An instance of the conversions for running the routes on examples: a
    value of another type than the column's is refused. *)
Definition refuse (v : pyval) : outcome sqlval :=
  Raise (DBAPIError ("Error binding parameter: type '" ++ type_name v
                     ++ "' is not supported")).

Definition empty_db : database := {| authors := []; posts := [] |}.

(** ** Vocabulary of the specification *)

(** [m] occurs in [t] as a substring. *)
Definition occurs (m t : string) : Prop :=
  exists before after, t = (before ++ m ++ after)%str.

(** [c] is a decimal digit: the digit [d] of the script whose zero is
    [zero]. *)
Definition decimal_digit {U : unicode_database} (c : char) : Prop :=
  exists zero d, In zero decimal_zeros /\ (d < 10)%N /\ c = (zero + d)%N.

(** Exactly ten decimal digits and nothing else. *)
Definition ten_digits {U : unicode_database} (s : string) : Prop :=
  String.length s = 10 /\
  forall c, In c (chars s) -> decimal_digit c.

(** The flat maps the specification describes: a post without its
    [author], an author without its [posts], and the two top-level
    views built from them. *)
Definition post_without_author (p : post_row) : pyval :=
  PDict [("id", PInt (p_id p));
         ("title", of_sql (p_title p));
         ("content", of_sql (p_content p));
         ("category", of_sql (p_category p));
         ("summary", of_sql (p_summary p));
         ("created_at", of_sql (p_created_at p));
         ("updated_at", of_sql (p_updated_at p));
         ("author_id", of_sql (p_author_id p))].

Definition author_without_posts (a : author_row) : pyval :=
  PDict [("id", PInt (a_id a));
         ("name", of_sql (a_name a));
         ("phone_number", of_sql (a_phone_number a));
         ("created_at", of_sql (a_created_at a));
         ("updated_at", of_sql (a_updated_at a))].

Definition author_view (db : database) (a : author_row) : pyval :=
  PDict [("id", PInt (a_id a));
         ("name", of_sql (a_name a));
         ("phone_number", of_sql (a_phone_number a));
         ("created_at", of_sql (a_created_at a));
         ("updated_at", of_sql (a_updated_at a));
         ("posts", PList (map post_without_author (posts_of db a)))].

Definition post_view (db : database) (p : post_row) : pyval :=
  PDict [("id", PInt (p_id p));
         ("title", of_sql (p_title p));
         ("content", of_sql (p_content p));
         ("category", of_sql (p_category p));
         ("summary", of_sql (p_summary p));
         ("created_at", of_sql (p_created_at p));
         ("updated_at", of_sql (p_updated_at p));
         ("author_id", of_sql (p_author_id p));
         ("author", match author_of db p with
                    | Some a => author_without_posts a
                    | None => PNone
                    end)].

(** A serialized value has no key [key] at its top level. *)
Definition lacks (key : string) (v : pyval) : Prop :=
  match v with
  | PDict items => lookup key items = None
  | _ => True
  end.


(** ** app.py: the GET routes and the application *)

(** The text an f-string gives for the id of a route: the int converter of
    the URL rule only lets a non-negative integer through. *)
Definition string_of_id (id : N) : string := decimal id.

(** Author.query.get(id) and Post.query.get(id): the row with that primary
    key, if there is one.  The id is bound as a parameter of the SELECT,
    and the driver refuses an int that does not fit in 64 bits. *)
Definition query_get_author (db : database) (id : N)
  : outcome (option author_row) :=
  if in_int64 (Z.of_N id) then
    Return (find (fun a => (a_id a =? Z.of_N id)%Z) (authors db))
  else Raise (OverflowError "Python int too large to convert to SQLite INTEGER").

Definition query_get_post (db : database) (id : N)
  : outcome (option post_row) :=
  if in_int64 (Z.of_N id) then
    Return (find (fun p => (p_id p =? Z.of_N id)%Z) (posts db))
  else Raise (OverflowError "Python int too large to convert to SQLite INTEGER").

(** An exception that leaves a view function.  Flask wraps it in
    werkzeug's InternalServerError and answers with the handler registered
    for 500, called with that exception (PROPAGATE_EXCEPTIONS off; the
    development server of [app.run(debug=True)] answers 500 as well, with
    the page of its debugger).  The session is removed with the request,
    which rolls back what it had not committed. *)
Definition handle_exception (e : exn) : route :=
  rollback_then (internal_server_error (ErrExn InternalServerError)).

(** Author.query.all() and Post.query.all(), in the order of the table. *)
Definition query_all_authors : M (list entity) :=
  fun s => (Return (map EAuthor (authors (working s))), s).

Definition query_all_posts : M (list entity) :=
  fun s => (Return (map EPost (posts (working s))), s).

(** [e.to_dict()] on an object a query returned. *)
Definition entity_to_dict (e : entity) : M pyval :=
  fun s => (to_dict (working s) e, s).

(** [[x.to_dict() for x in xs]] *)
Fixpoint to_dict_each (es : list entity) : M (list pyval) :=
  match es with
  | [] => ret []
  | e :: rest =>
      d <~ entity_to_dict e ;;
      ds <~ to_dict_each rest ;;
      ret (d :: ds)
  end.

(** GET / *)
Definition index : route :=
  respond {| status := 200;
             body := PStr "<h1>Flask-SQLAlchemy Validations Lab API</h1>" |}.

(** GET /authors *)
Definition get_authors : route :=
  try_except
    (all <~ query_all_authors ;;
     ds <~ to_dict_each all ;;
     ret (make_response (jsonify (PList ds)) 200))
    (fun e => rollback_then (internal_server_error (ErrStr (exn_str e)))).

(** GET /authors/<int:id>: the query stands before the try, and the
    except clause does not roll back. *)
Definition get_author_by_id (id : N) : route :=
  fun s =>
    match query_get_author (working s) id with
    | Raise e => handle_exception e s
    | Return None =>
        respond (not_found (ErrStr ("Author with id " ++ string_of_id id
                                    ++ " not found."))) s
    | Return (Some author) =>
        try_except
          (d <~ entity_to_dict (EAuthor author) ;;
           ret (make_response (jsonify d) 200))
          (fun e => respond (internal_server_error (ErrStr (exn_str e)))) s
    end.

(** GET /posts *)
Definition get_posts : route :=
  try_except
    (all <~ query_all_posts ;;
     ds <~ to_dict_each all ;;
     ret (make_response (jsonify (PList ds)) 200))
    (fun e => rollback_then (internal_server_error (ErrStr (exn_str e)))).

(** GET /posts/<int:id> *)
Definition get_post_by_id (id : N) : route :=
  fun s =>
    match query_get_post (working s) id with
    | Raise e => handle_exception e s
    | Return None =>
        respond (not_found (ErrStr ("Post with id " ++ string_of_id id
                                    ++ " not found."))) s
    | Return (Some post) =>
        try_except
          (d <~ entity_to_dict (EPost post) ;;
           ret (make_response (jsonify d) 200))
          (fun e => respond (internal_server_error (ErrStr (exn_str e)))) s
    end.

(** The requests the application routes, and a run of requests, each in
    its own session on the store the one before left. *)
Inductive request : Type :=
| GetIndex
| GetAuthors
| GetAuthor (id : N)
| PostAuthors (now : string) (data : pyval)
| GetPosts
| GetPost (id : N)
| PostPosts (now : string) (data : pyval).

Section Application.

Context {U : unicode_database}.
Variables coerce_text coerce_integer : pyval -> outcome sqlval.

Definition dispatch (r : request) : route :=
  match r with
  | GetIndex => index
  | GetAuthors => get_authors
  | GetAuthor id => get_author_by_id id
  | PostAuthors now data => create_author coerce_text coerce_integer now data
  | GetPosts => get_posts
  | GetPost id => get_post_by_id id
  | PostPosts now data => create_post coerce_text coerce_integer now data
  end.

Fixpoint run (rs : list request) (db : database) : list response * database :=
  match rs with
  | [] => ([], db)
  | r :: rest =>
      let (resp, db') := serve (dispatch r) db in
      let (resps, db'') := run rest db' in
      (resp :: resps, db'')
  end.

End Application.

(** ** Integrity of the store *)

Definition valid_phone {U : unicode_database} (v : sqlval) : Prop :=
  v = SqlNull \/ exists s, v = SqlText s /\ ten_digits s.

Definition valid_category (v : sqlval) : Prop :=
  v = SqlText "Fiction" \/ v = SqlText "Non-Fiction".

(** What the columns declare and the validators check, of every row:
    author names are present and pairwise different, primary keys are
    pairwise different, phone numbers are NULL or ten digits, a post has a
    title and an author_id, and its category is one of the two. *)
Record store_ok {U : unicode_database} (db : database) : Prop := {
  names_unique : NoDup (map a_name (authors db));
  names_present : forall a, In a (authors db) -> a_name a <> SqlNull;
  phones_valid : forall a, In a (authors db) -> valid_phone (a_phone_number a);
  author_ids_unique : NoDup (map a_id (authors db));
  post_ids_unique : NoDup (map p_id (posts db));
  posts_valid : forall p, In p (posts db) ->
                          valid_category (p_category p)
                          /\ p_title p <> SqlNull
                          /\ p_author_id p <> SqlNull
}.

(** The two fixed error answers of the POST routes. *)
Definition answer_400 : response :=
  {| status := 400; body := PDict [("error", PStr "Bad Request")] |}.

Definition answer_500 : response :=
  {| status := 500; body := PDict [("error", PStr "Internal Server Error")] |}.

Definition answer_404 : response :=
  {| status := 404; body := PDict [("error", PStr "Resource not found")] |}.

(** The answer to an exception that left a view function. *)
Definition answer_unhandled : response :=
  internal_server_error (ErrExn InternalServerError).

(** The number of 201 answers among the answers of a run. *)
Definition created (resps : list response) : nat :=
  List.length (filter (fun r => (status r =? 201)%nat) resps).

(** ** Auxiliary definitions for the proofs *)

(** What is left of [s] after [n] digits, if it starts with [n] digits. *)
Fixpoint strip_digits {U : unicode_database} (n : nat) (s : string)
  : option string :=
  match n with
  | O => Some s
  | S m =>
      match s with
      | String c rest => if is_digit c then strip_digits m rest else None
      | EmptyString => None
      end
  end.

(** Nesting depth of a serialized value. *)
Fixpoint depth (v : pyval) : nat :=
  match v with
  | PList l => S (fold_right (fun x acc => Nat.max (depth x) acc) 0 l)
  | PDict d =>
      S (fold_right (fun kv acc =>
                       match kv with (_, x) => Nat.max (depth x) acc end) 0 d)
  | _ => 0
  end.

(** A store in which an author and a post refer to each other. *)
Definition ann : author_row :=
  {| a_id := 1; a_name := SqlText "Ann"; a_phone_number := SqlNull;
     a_created_at := SqlText "2024-01-01 00:00:00"; a_updated_at := SqlNull |}.

Definition anns_post : post_row :=
  {| p_id := 1; p_title := SqlText "Top Secret"; p_content := SqlText "x";
     p_category := SqlText "Fiction"; p_summary := SqlNull;
     p_created_at := SqlText "2024-01-01 00:00:00"; p_updated_at := SqlNull;
     p_author_id := SqlInteger 1 |}.

Definition ann_db : database := {| authors := [ann]; posts := [anns_post] |}.

(** [d.get(key)] as a value. *)
Definition get_or_none (d : list (string * pyval)) (key : string) : pyval :=
  match lookup key d with Some v => v | None => PNone end.

(** Request bodies and stores used as examples. *)
Definition long_content : string :=
  String.concat "" (repeat "Lorem ipsum dolor sit amet. " 10).

Definition post_for_author_999 : pyval :=
  PDict [("title", PStr "Top Secret");
         ("content", PStr long_content);
         ("category", PStr "Fiction");
         ("author_id", PInt 999)].

Definition post_without_title : pyval :=
  PDict [("content", PStr long_content);
         ("category", PStr "Fiction");
         ("author_id", PInt 1)].

Definition author_ann : pyval := PDict [("name", PStr "Ann")].

Definition author_ann_numeric_phone : pyval :=
  PDict [("name", PStr "Ann"); ("phone_number", PInt 5551234567)].

Definition author_ann_with_phone : pyval :=
  PDict [("name", PStr "Ann"); ("phone_number", PStr "5551234567")].

(** 5551234567 in Arabic-Indic digits (U+0660 to U+0669), and 555123456
    followed by a superscript two (U+00B2, a digit that is not decimal). *)
Definition arabic_indic_phone : string :=
  string_of_chars
    [0x665; 0x665; 0x665; 0x661; 0x662; 0x663; 0x664; 0x665; 0x666; 0x667]%N.

Definition superscript_phone : string := "555123456" ++ String 0xB2%N "".

Definition author_ann_arabic_indic_phone : pyval :=
  PDict [("name", PStr "Ann"); ("phone_number", PStr arabic_indic_phone)].

(** A name with a lone surrogate, as the JSON text "\ud800nn" decodes. *)
Definition author_with_surrogate_name : pyval :=
  PDict [("name", PStr (String 0xD800%N "nn"))].

(** * Properties *)

(** ** Strings and the substring test *)

Lemma string_eqb_eq (a b : string) : (a =? b) = true <-> a = b.
Proof.
  revert b; induction a as [|c a IH]; intros [|d b]; simpl;
    try (split; [discriminate | intros E; discriminate]).
  - split; reflexivity.
  - rewrite andb_true_iff, N.eqb_eq, IH. split.
    + intros [-> ->]. reflexivity.
    + intros E. injection E as -> ->. now split.
Qed.

Lemma prefix_app (n h : string) :
  prefix n h = true <-> exists after, h = (n ++ after)%str.
Proof.
  revert h; induction n as [|a n IH]; intros h.
  - split; [intros _; now exists h | intros _; now destruct h].
  - destruct h as [|b h]; simpl.
    + split; [discriminate | intros [after E]; discriminate].
    + rewrite andb_true_iff, N.eqb_eq, IH. split.
      * intros [-> [after ->]]. now exists after.
      * intros [after E]. injection E as -> ->. split; [reflexivity|].
        now exists after.
Qed.

Lemma contains_occurs (n h : string) : contains n h = true <-> occurs n h.
Proof.
  unfold occurs. induction h as [|c h IH]; cbn [contains].
  - rewrite orb_false_r, prefix_app. split.
    + intros [after E]. now exists EmptyString, after.
    + intros [[|b before] [after E]]; [now exists after | discriminate].
  - rewrite orb_true_iff, prefix_app, IH. split.
    + intros [[after E] | [before [after E]]].
      * now exists EmptyString, after.
      * exists (String c before), after. simpl. now rewrite E.
    + intros [[|b before] [after E]].
      * left. now exists after.
      * right. simpl in E. injection E as _ E. now exists before, after.
Qed.

Lemma any_in_str (kws : list string) (t : string) :
  any_in kws (PStr t) = Return (existsb (fun k => contains k t) kws).
Proof.
  induction kws as [|k kws IH]; simpl; [reflexivity|].
  destruct (contains k t); simpl; [reflexivity | exact IH].
Qed.

Lemma validate_title_str (key t : string) :
  Post.validate_title key (PStr t) =
  if existsb (fun k => contains k t) Post.clickbait_keywords
  then Return (PStr t)
  else Raise (ValueError
    "Post title must contain one of: 'Won't Believe', 'Secret', 'Top', 'Guess'.").
Proof.
  unfold Post.validate_title. rewrite any_in_str. unfold bind.
  now destruct (existsb _ _).
Qed.

(** C1. For every string [t], the title validator returns [t] exactly when
    one of the four markers occurs in [t] as a substring, character for
    character; for every other string it raises the ValueError of the
    title rule. *)
Theorem validate_title_accepts_iff_marker (key t : string) :
  (Post.validate_title key (PStr t) = Return (PStr t) <->
   exists m, In m ["Won't Believe"; "Secret"; "Top"; "Guess"] /\ occurs m t)
  /\ (Post.validate_title key (PStr t) = Return (PStr t) \/
      Post.validate_title key (PStr t) = Raise (ValueError
        "Post title must contain one of: 'Won't Believe', 'Secret', 'Top', 'Guess'.")).
Proof.
  rewrite validate_title_str. split.
  - destruct (existsb _ _) eqn:E.
    + split; [intros _ | reflexivity].
      apply existsb_exists in E as [m [Hin Hc]].
      exists m. split; [exact Hin | now apply contains_occurs].
    + split; [discriminate|]. intros [m [Hin Ho]].
      assert (existsb (fun k => contains k t) Post.clickbait_keywords = true) as E'.
      { apply existsb_exists. exists m. split; [exact Hin | now apply contains_occurs]. }
      congruence.
  - destruct (existsb _ _); [now left | now right].
Qed.

Example title_top_10_secrets :
  Post.validate_title "title" (PStr "Top 10 Secrets") = Return (PStr "Top 10 Secrets").
Proof. reflexivity. Qed.

Example title_a_nice_day :
  exists msg, Post.validate_title "title" (PStr "A Nice Day") = Raise (ValueError msg).
Proof. eexists. reflexivity. Qed.

Example title_lower_case_marker :
  exists msg, Post.validate_title "title" (PStr "top secret") = Raise (ValueError msg).
Proof. eexists. reflexivity. Qed.

(** ** The phone number pattern *)

Lemma iterate_nil (step : string -> list string) (n : nat) :
  iterate step n [] = [].
Proof. induction n; simpl; auto. Qed.

Lemma iterate_digit {U : unicode_database} (n : nat) (s : string) :
  iterate (rmatch Digit) n [s] =
  match strip_digits n s with Some r => [r] | None => [] end.
Proof.
  revert s; induction n as [|n IH]; intros s; [reflexivity|].
  simpl. destruct s as [|c rest]; simpl.
  - apply iterate_nil.
  - destruct (is_digit c); simpl; [apply IH | apply iterate_nil].
Qed.

Lemma is_digit_decimal {U : unicode_database} (c : char) :
  is_digit c = true <-> decimal_digit c.
Proof.
  unfold is_digit, decimal_digit. rewrite existsb_exists. split.
  - intros [zero [Hin E]]. apply andb_true_iff in E as [L R].
    apply N.leb_le in L. apply N.ltb_lt in R.
    exists zero, (c - zero)%N. split; [exact Hin | lia].
  - intros [zero [d [Hin [Hd ->]]]]. exists zero. split; [exact Hin|].
    apply andb_true_iff. split; [apply N.leb_le | apply N.ltb_lt]; lia.
Qed.

Lemma strip_digits_all {U : unicode_database} (n : nat) (s : string) :
  strip_digits n s = Some EmptyString <->
  String.length s = n /\
  forall c, In c (chars s) -> decimal_digit c.
Proof.
  revert s; induction n as [|n IH]; intros s; simpl.
  - split.
    + intros E. injection E as ->. split; [reflexivity | intros c []].
    + intros [L _]. destruct s; [reflexivity | discriminate].
  - destruct s as [|c rest]; simpl.
    + split; [discriminate | intros [L _]; discriminate].
    + destruct (is_digit c) eqn:D.
      * rewrite IH. split; intros [L A]; (split; [lia|]).
        -- intros x [<- | Hx]; [now apply is_digit_decimal | now apply A].
        -- intros x Hx. apply A. now right.
      * split; [discriminate|]. intros [_ A].
        assert (is_digit c = true) by (apply is_digit_decimal, A; now left).
        congruence.
Qed.

Lemma fullmatch_phone {U : unicode_database} (s : string) :
  fullmatch Author.phone_pattern (PStr s) =
  Return (match strip_digits 10 s with
          | Some EmptyString => true
          | _ => false
          end).
Proof.
  unfold fullmatch, Author.phone_pattern.
  change (rmatch (Repeat Digit 10) s) with (iterate (rmatch Digit) 10 [s]).
  rewrite iterate_digit.
  destruct (strip_digits 10 s) as [[|c r]|]; reflexivity.
Qed.

(** C2. For every candidate value [p], the phone number validator returns
    [p] exactly when [p] is None or a string that consists of exactly ten
    decimal digits; on every other value it raises. *)
Theorem validate_phone_number_accepts_iff {U : unicode_database} (key : string) (p : pyval) :
  (Author.validate_phone_number key p = Return p <->
   p = PNone \/ exists s, p = PStr s /\ ten_digits s)
  /\ (Author.validate_phone_number key p = Return p \/
      exists e, Author.validate_phone_number key p = Raise e).
Proof.
  destruct p as [|b|z|s|l|d];
    try (split; [split; [discriminate | intros [E|[s [E _]]]; discriminate]
                | right; eexists; reflexivity]).
  - split; [split; [now left | reflexivity] | now left].
  - unfold Author.validate_phone_number. rewrite fullmatch_phone. unfold bind.
    pose proof (strip_digits_all 10 s) as S.
    destruct (strip_digits 10 s) as [[|c r]|]; simpl.
    + split; [|now left]. split; [intros _ | reflexivity].
      right. exists s. split; [reflexivity | now apply S].
    + split; [|right; eexists; reflexivity].
      split; [discriminate|]. intros [E|[s' [E T]]]; [discriminate|].
      injection E as <-. apply S in T. discriminate.
    + split; [|right; eexists; reflexivity].
      split; [discriminate|]. intros [E|[s' [E T]]]; [discriminate|].
      injection E as <-. apply S in T. discriminate.
Qed.

Lemma validate_phone_number_str {U : unicode_database} (key s : string) :
  Author.validate_phone_number key (PStr s) = Return (PStr s) \/
  Author.validate_phone_number key (PStr s) =
  Raise (ValueError "Phone number must be exactly ten digits.").
Proof.
  unfold Author.validate_phone_number. rewrite fullmatch_phone. unfold bind.
  destruct (strip_digits 10 s) as [[|c r]|]; simpl; auto.
Qed.

Example phone_ten_digits :
  Author.validate_phone_number "phone_number" (PStr "5551234567")
  = Return (PStr "5551234567").
Proof. reflexivity. Qed.

Example phone_nine_digits :
  Author.validate_phone_number "phone_number" (PStr "555123456")
  = Raise (ValueError "Phone number must be exactly ten digits.").
Proof. reflexivity. Qed.

Example phone_with_dashes :
  Author.validate_phone_number "phone_number" (PStr "555-123-4567")
  = Raise (ValueError "Phone number must be exactly ten digits.").
Proof. reflexivity. Qed.

Example phone_as_number :
  exists msg, Author.validate_phone_number "phone_number" (PInt 5551234567)
              = Raise (TypeError msg).
Proof. eexists. reflexivity. Qed.

(** The pattern has no re.ASCII flag: ten digits of another script are
    accepted, and a digit that is not decimal is not. *)
Example phone_arabic_indic_digits :
  Author.validate_phone_number "phone_number" (PStr arabic_indic_phone)
  = Return (PStr arabic_indic_phone).
Proof. reflexivity. Qed.

Example phone_superscript_digit :
  Author.validate_phone_number "phone_number" (PStr superscript_phone)
  = Raise (ValueError "Phone number must be exactly ten digits.").
Proof. reflexivity. Qed.

(** ** Content and category *)

(** C3. For every string [c], the content validator returns [c] exactly
    when [c] has at least 250 characters and raises the ValueError of the
    content rule otherwise; None is rejected with the same error. *)
Theorem validate_content_accepts_iff (key c : string) :
  (Post.validate_content key (PStr c) = Return (PStr c) <->
   250 <= String.length c)
  /\ (Post.validate_content key (PStr c) = Return (PStr c) \/
      Post.validate_content key (PStr c) =
      Raise (ValueError "Post content must be at least 250 characters long."))
  /\ Post.validate_content key PNone =
     Raise (ValueError "Post content must be at least 250 characters long.").
Proof.
  unfold Post.validate_content. simpl truthy. rewrite negb_involutive.
  split; [|split; [|reflexivity]].
  - destruct (c =? "") eqn:E.
    + apply string_eqb_eq in E. subst c. simpl.
      split; [discriminate | lia].
    + simpl. destruct (Nat.ltb_spec (String.length c) 250).
      * split; [discriminate | lia].
      * split; [intros _; assumption | reflexivity].
  - destruct (c =? ""); [now right|]. simpl.
    destruct (String.length c <? 250)%nat; [now right | now left].
Qed.

Lemma str_eq_true (s : string) (v : pyval) : str_eq s v = true <-> v = PStr s.
Proof.
  destruct v; simpl; try (split; discriminate).
  rewrite string_eqb_eq. split; [intros ->; reflexivity | intros E; now injection E].
Qed.

(** C4. For every candidate value [v], the category validator returns [v]
    exactly when [v] is the string Fiction or the string Non-Fiction, and
    raises the ValueError of the category rule on every other value, None
    included. *)
Theorem validate_category_accepts_iff (key : string) (v : pyval) :
  (Post.validate_category key v = Return v <->
   v = PStr "Fiction" \/ v = PStr "Non-Fiction")
  /\ (Post.validate_category key v = Return v \/
      Post.validate_category key v =
      Raise (ValueError "Post category must be 'Fiction' or 'Non-Fiction'."))
  /\ Post.validate_category key PNone =
     Raise (ValueError "Post category must be 'Fiction' or 'Non-Fiction'.").
Proof.
  unfold Post.validate_category, in_str_list, Post.categories.
  cbn [existsb]. rewrite orb_false_r.
  split; [|split; [|reflexivity]].
  - rewrite <- !str_eq_true.
    destruct (str_eq "Fiction" v), (str_eq "Non-Fiction" v); simpl;
      intuition discriminate.
  - destruct (str_eq "Fiction" v), (str_eq "Non-Fiction" v); simpl; auto.
Qed.

Example category_lower_case :
  exists msg, Post.validate_category "category" (PStr "fiction")
              = Raise (ValueError msg).
Proof. eexists. reflexivity. Qed.

(** ** Serialization *)

Lemma map_outcome_return {A B C : Type} (f : B -> outcome C) (h : A -> B)
  (g : A -> C) (l : list A) :
  (forall x, f (h x) = Return (g x)) ->
  map_outcome f (map h l) = Return (map g l).
Proof.
  intros H. induction l as [|x l IH]; simpl; [reflexivity|].
  now rewrite H, IH.
Qed.

Lemma serialize_with_step (rules_of : entity -> list path) (fuel : nat)
  (db : database) (rules : list path) (e : entity) :
  serialize_with rules_of (S fuel) db rules e =
  (items <- serialize_items
              (fun key e' =>
                 serialize_with rules_of fuel db (fork (rules ++ rules_of e) key) e')
              (rules ++ rules_of e) (attributes db e) ;;
   Return (PDict items)).
Proof. reflexivity. Qed.

Lemma nested_post (fuel : nat) (db : database) (p : post_row) :
  serialize_model (S fuel) db [["author"]] (EPost p)
  = Return (post_without_author p).
Proof. reflexivity. Qed.

Lemma nested_author (fuel : nat) (db : database) (a : author_row) :
  serialize_model (S fuel) db [["posts"]] (EAuthor a)
  = Return (author_without_posts a).
Proof. reflexivity. Qed.

Lemma author_serialized (fuel : nat) (db : database) (a : author_row) :
  serialize_model (S (S fuel)) db [] (EAuthor a) = Return (author_view db a).
Proof.
  unfold serialize_model. rewrite serialize_with_step.
  cbn -[posts_of map_outcome serialize_with].
  rewrite (map_outcome_return _ EPost post_without_author).
  - reflexivity.
  - intros p. apply nested_post.
Qed.

Lemma post_serialized (fuel : nat) (db : database) (p : post_row) :
  serialize_model (S (S fuel)) db [] (EPost p) = Return (post_view db p).
Proof.
  unfold serialize_model, post_view. rewrite serialize_with_step.
  cbn -[author_of serialize_with].
  destruct (author_of db p) as [a|]; cbn -[serialize_with]; [|reflexivity].
  change (serialize_with serialize_rules (S fuel) db [["posts"]] (EAuthor a))
    with (serialize_model (S fuel) db [["posts"]] (EAuthor a)).
  now rewrite nested_author.
Qed.

Lemma depth_of_sql (v : sqlval) : depth (of_sql v) = 0.
Proof. now destruct v. Qed.

Lemma depth_post_without_author (p : post_row) :
  depth (post_without_author p) = 1.
Proof.
  unfold post_without_author. cbn [depth fold_right].
  now rewrite !depth_of_sql.
Qed.

Lemma depth_author_without_posts (a : author_row) :
  depth (author_without_posts a) = 1.
Proof.
  unfold author_without_posts. cbn [depth fold_right].
  now rewrite !depth_of_sql.
Qed.

Lemma depth_posts (l : list post_row) :
  fold_right (fun x acc => Nat.max (depth x) acc) 0
    (map post_without_author l) <= 1.
Proof.
  induction l as [|p l IH]; [simpl; lia|].
  cbn [map fold_right]. rewrite depth_post_without_author. lia.
Qed.

Lemma depth_author_view (db : database) (a : author_row) :
  depth (author_view db a) <= 3.
Proof.
  unfold author_view. cbn [depth fold_right].
  rewrite !depth_of_sql. pose proof (depth_posts (posts_of db a)). lia.
Qed.

Lemma depth_post_view (db : database) (p : post_row) :
  depth (post_view db p) <= 2.
Proof.
  unfold post_view. cbn [depth fold_right]. rewrite !depth_of_sql.
  destruct (author_of db p) as [a|].
  - rewrite depth_author_without_posts. lia.
  - simpl. lia.
Qed.

Lemma posts_lack_author (l : list post_row) :
  Forall (lacks "author") (map post_without_author l).
Proof.
  induction l as [|p l IH]; constructor; [reflexivity | exact IH].
Qed.

Lemma to_dict_author (db : database) (a : author_row) :
  to_dict db (EAuthor a) = Return (author_view db a).
Proof. exact (author_serialized 998 db a). Qed.

Lemma to_dict_post (db : database) (p : post_row) :
  to_dict db (EPost p) = Return (post_view db p).
Proof. exact (post_serialized 998 db p). Qed.

(** C8. For every store, every Author and every Post: [to_dict] returns
    (it neither runs out of recursion depth nor raises), the serialized
    Author carries each of its Posts without an [author] entry, the
    serialized Post carries its Author without a [posts] entry, and the
    results are finite maps nested at most three deep.  Recursion depth two
    is already enough, whatever the store holds. *)
Theorem to_dict_breaks_the_cycle (db : database) :
  (forall a,
      to_dict db (EAuthor a) = Return (author_view db a)
      /\ Forall (lacks "author") (map post_without_author (posts_of db a))
      /\ depth (author_view db a) <= 3)
  /\ (forall p,
      to_dict db (EPost p) = Return (post_view db p)
      /\ (exists items nested,
             post_view db p = PDict items /\
             lookup "author" items = Some nested /\
             lacks "posts" nested)
      /\ depth (post_view db p) <= 2)
  /\ (forall fuel e, serialize_model (2 + fuel) db [] e = to_dict db e).
Proof.
  split; [|split].
  - intros a. split; [|split].
    + apply to_dict_author.
    + apply posts_lack_author.
    + apply depth_author_view.
  - intros p. split; [|split].
    + apply to_dict_post.
    + do 2 eexists. split; [reflexivity|]. split; [reflexivity|].
      now destruct (author_of db p).
    + apply depth_post_view.
  - intros fuel [a|p].
    + rewrite to_dict_author. apply author_serialized.
    + rewrite to_dict_post. apply post_serialized.
Qed.

(** Without the two rules the same serializer does not come back: an author
    and a post that refer to each other use up any recursion depth. *)
Lemma without_rules_serialization_recurses (fuel : nat) :
  serialize_with (fun _ => []) fuel ann_db [] (EAuthor ann)
  = Raise RecursionError
  /\ serialize_with (fun _ => []) fuel ann_db [] (EPost anns_post)
     = Raise RecursionError.
Proof.
  induction fuel as [|fuel [IHa IHp]]; [split; reflexivity|].
  rewrite !serialize_with_step. split.
  - cbn -[serialize_with].
    match goal with
    | |- context [serialize_with ?r ?f ?d ?ru ?e] =>
        replace (serialize_with r f d ru e) with (@Raise pyval RecursionError)
          by (symmetry; exact IHp)
    end.
    reflexivity.
  - cbn -[serialize_with].
    match goal with
    | |- context [serialize_with ?r ?f ?d ?ru ?e] =>
        replace (serialize_with r f d ru e) with (@Raise pyval RecursionError)
          by (symmetry; exact IHa)
    end.
    reflexivity.
Qed.

(** ** The routes: answers that do not reach the models *)

Lemma rollback_begin (db : database) : rollback (begin db) = begin db.
Proof. reflexivity. Qed.

(** C10, on the code.  For a body that decodes to the empty object or to
    None, both POST routes answer 400 at once and leave the session as it
    was: no object is built, nothing is validated.  The text handed to
    [bad_request] is a str and not an exception, so the body of the answer
    carries the default text and not "No input data provided.". *)
Theorem no_input_answer_has_default_text {U : unicode_database}
  (coerce_text coerce_integer : pyval -> outcome sqlval) (now : string)
  (s : session) :
  let answer := {| status := 400; body := PDict [("error", PStr "Bad Request")] |} in
  create_author coerce_text coerce_integer now (PDict []) s = (answer, s)
  /\ create_author coerce_text coerce_integer now PNone s = (answer, s)
  /\ create_post coerce_text coerce_integer now (PDict []) s = (answer, s)
  /\ create_post coerce_text coerce_integer now PNone s = (answer, s)
  /\ bad_request (ErrStr "No input data provided.") = answer.
Proof. repeat split. Qed.

(** ** POST /posts *)

(** C9 as stated fails on the empty object: it omits title, and the route
    answers 400 before the title validator is reached. *)
Lemma empty_post_body_is_answered_400 :
  lookup "title" [] = None
  /\ status (fst (serve (create_post refuse refuse "2024-01-01 00:00:00"
                           (PDict [])) empty_db)) = 400
  /\ status (fst (serve (create_post refuse refuse "2024-01-01 00:00:00"
                           (PDict [])) empty_db)) <> 500.
Proof. repeat split. discriminate. Qed.

Lemma validate_title_none (key : string) :
  Post.validate_title key PNone
  = Raise (TypeError "argument of type 'NoneType' is not iterable").
Proof. reflexivity. Qed.

(** C9, amended.  For every POST /posts request whose body is a non-empty
    JSON object without a title key: the title is None, the substring test
    of the title validator raises a TypeError (not a ValueError), the
    except clause for ValueError is passed over, the session is rolled
    back and the answer is 500; the store is unchanged. *)
Theorem create_post_without_title_is_500
  (coerce_text coerce_integer : pyval -> outcome sqlval) (now : string)
  (d : list (string * pyval)) (db : database) :
  d <> [] ->
  lookup "title" d = None ->
  exists msg,
    dict_get (PDict d) "title" = Return PNone
    /\ any_in Post.clickbait_keywords PNone = Raise (TypeError msg)
    /\ Post.validate_title "title" PNone = Raise (TypeError msg)
    /\ create_post coerce_text coerce_integer now (PDict d) (begin db)
       = (internal_server_error (ErrStr msg), begin db)
    /\ serve (create_post coerce_text coerce_integer now (PDict d)) db
       = ({| status := 500;
             body := PDict [("error", PStr "Internal Server Error")] |}, db).
Proof.
  intros Hd Ht. eexists.
  split; [simpl; now rewrite Ht|].
  split; [reflexivity|]. split; [reflexivity|].
  assert (create_post coerce_text coerce_integer now (PDict d) (begin db)
          = (internal_server_error
               (ErrStr "argument of type 'NoneType' is not iterable"), begin db))
    as E.
  { unfold create_post. destruct d as [|kv d']; [contradiction|].
    cbn [truthy negb].
    unfold try_except, bindM, lift, dict_get. rewrite Ht.
    reflexivity. }
  split; [exact E|].
  unfold serve. now rewrite E.
Qed.

Lemma create_post_without_title_is_500_witness :
  exists msg,
    dict_get post_without_title "title" = Return PNone
    /\ any_in Post.clickbait_keywords PNone = Raise (TypeError msg)
    /\ Post.validate_title "title" PNone = Raise (TypeError msg)
    /\ create_post refuse refuse "2024-01-01 00:00:00" post_without_title
         (begin ann_db)
       = (internal_server_error (ErrStr msg), begin ann_db)
    /\ serve (create_post refuse refuse "2024-01-01 00:00:00" post_without_title)
         ann_db
       = ({| status := 500;
             body := PDict [("error", PStr "Internal Server Error")] |}, ann_db).
Proof.
  apply (@create_post_without_title_is_500 refuse refuse
           "2024-01-01 00:00:00" _ ann_db).
  - discriminate.
  - reflexivity.
Defined.

Lemma sqlval_eqb_eq (a b : sqlval) : sqlval_eqb a b = true <-> a = b.
Proof.
  destruct a, b; simpl; try (split; [discriminate | intros E; discriminate]).
  - split; reflexivity.
  - rewrite Z.eqb_eq. split; [intros ->; reflexivity | intros E; now injection E].
  - rewrite string_eqb_eq. split; [intros ->; reflexivity | intros E; now injection E].
Qed.

Lemma sqlval_eqb_refl (a : sqlval) : sqlval_eqb a a = true.
Proof. now apply sqlval_eqb_eq. Qed.

(** C6, on the code.  A valid post for author 999 is sent to a store
    without any author: the route answers 201 and the post row is stored,
    its author_id referring to no author.  SQLite does not check the
    FOREIGN KEY clause on a connection that has not turned the pragma on. *)
Theorem post_for_unknown_author_is_stored :
  let r := serve (create_post refuse refuse "2024-01-01 00:00:00"
                    post_for_author_999) empty_db in
  status (fst r) = 201
  /\ authors (snd r) = []
  /\ map p_author_id (posts (snd r)) = [SqlInteger 999]
  /\ references_author (snd r) (SqlInteger 999) = false.
Proof. vm_compute. repeat split. Qed.

(** The same INSERT with the check switched on is refused, which is the
    IntegrityError the except clause of create_post is written for. *)
Lemma insert_post_checked_is_refused :
  exists o,
    PostModel.new (PStr "Top Secret") (PStr long_content) PNone (PStr "Fiction")
      (PInt 999) = Return o
    /\ insert_post refuse refuse true "2024-01-01 00:00:00" o empty_db
       = Raise (IntegrityError "FOREIGN KEY constraint failed").
Proof. eexists. split; reflexivity. Qed.

(** A missing author_id, on the other hand, is refused by NOT NULL and
    answered 400 with the store unchanged. *)
Lemma post_without_author_id_is_400 :
  serve (create_post refuse refuse "2024-01-01 00:00:00"
           (PDict [("title", PStr "Top Secret");
                   ("content", PStr long_content);
                   ("category", PStr "Fiction")])) ann_db
  = ({| status := 400; body := PDict [("error", PStr "Bad Request")] |}, ann_db).
Proof. reflexivity. Qed.

(** ** Deleting an author *)

Lemma cascade_on_author_posts : cascades_delete AuthorModel.posts = true.
Proof. reflexivity. Qed.

(** C7.  For every store and every Author in it or not: deleting the Author
    through the session and committing succeeds, and in the committed
    store no Post refers to that Author, the Author's row is gone, and
    the Posts of other Authors are all still there.  The Posts go in the
    same commit as the Author. *)
Theorem deleting_an_author_deletes_its_posts
  (coerce_text coerce_integer : pyval -> outcome sqlval) (now : string)
  (a : author_row) (db : database) :
  exists db',
    delete_and_commit coerce_text coerce_integer now a (begin db)
    = (Return tt, begin db')
    /\ posts_of db' a = []
    /\ (forall p, In p (posts db') -> p_author_id p <> SqlInteger (a_id a))
    /\ (forall r, In r (authors db') -> a_id r <> a_id a)
    /\ (forall p, In p (posts db) ->
                  p_author_id p <> SqlInteger (a_id a) -> In p (posts db'))
    /\ (forall r, In r (authors db) -> a_id r <> a_id a -> In r (authors db')).
Proof.
  eexists. split; [reflexivity|]. cbn [posts authors].
  assert (forall p,
             In p (filter (fun p => negb (sqlval_eqb (p_author_id p)
                                            (SqlInteger (a_id a)))) (posts db)) ->
             p_author_id p <> SqlInteger (a_id a)) as Hno.
  { intros p Hp. apply filter_In in Hp as [_ Hp]. intros E.
    rewrite E, sqlval_eqb_refl in Hp. discriminate. }
  split; [|split; [exact Hno|split; [|split]]].
  - unfold posts_of. cbn [posts].
    destruct (filter _ (filter _ _)) as [|p l] eqn:E; [reflexivity|].
    assert (In p (p :: l)) as Hin by now left.
    rewrite <- E in Hin. apply filter_In in Hin as [Hin Hp].
    apply Hno in Hin. apply sqlval_eqb_eq in Hp. contradiction.
  - intros r Hr. apply filter_In in Hr as [_ Hr]. intros E.
    rewrite E, Z.eqb_refl in Hr. discriminate.
  - intros p Hp Hne. apply filter_In. split; [exact Hp|].
    destruct (sqlval_eqb _ _) eqn:E; [|reflexivity].
    apply sqlval_eqb_eq in E. contradiction.
  - intros r Hr Hne. apply filter_In. split; [exact Hr|].
    destruct (Z.eqb_spec (a_id r) (a_id a)); [contradiction | reflexivity].
Qed.

(** With a relationship that does not cascade, the same delete is refused
    as soon as the author has a post. *)
Lemma delete_without_cascade_is_refused :
  exists msg,
    delete_author {| rel_target := "Post"; rel_backref := "author";
                     rel_cascade := ["save-update"; "merge"] |} ann ann_db
    = Raise (IntegrityError msg).
Proof. eexists. reflexivity. Qed.

(** ** POST /authors *)

(** C5 as stated fails when the second request carries the same name and a
    phone number that is a JSON number: the first author is stored, and the
    second request is answered 500, not 400. *)
Lemma second_author_with_numeric_phone_is_500 :
  let first := serve (create_author refuse refuse "2024-01-01 00:00:00"
                        author_ann) empty_db in
  let second := serve (create_author refuse refuse "2024-01-02 00:00:00"
                         author_ann_numeric_phone) (snd first) in
  dict_get author_ann_numeric_phone "name" = dict_get author_ann "name"
  /\ status (fst first) = 201
  /\ status (fst second) = 500
  /\ status (fst second) <> 400.
Proof. vm_compute. repeat split. discriminate. Qed.

Lemma create_author_on_dict {U : unicode_database}
  (coerce_text coerce_integer : pyval -> outcome sqlval) (now : string)
  (d : list (string * pyval)) (db : database) :
  d <> [] ->
  create_author coerce_text coerce_integer now (PDict d) (begin db) =
  match AuthorModel.new (get_or_none d "name") (get_or_none d "phone_number") with
  | Raise e => create_author_except e (begin db)
  | Return o =>
      match insert_author coerce_text now o db with
      | Raise e =>
          create_author_except e
            {| committed := db; working := db;
               objects := [Pending (NewAuthor o)] |}
      | Return (row, db') =>
          (make_response (author_view db' row) 201,
           {| committed := db'; working := db';
              objects := [Persistent (EAuthor row)] |})
      end
  end.
Proof.
  intros Hd. destruct d as [|kv d']; [contradiction|].
  unfold create_author. cbn [truthy negb].
  unfold try_except, bindM, lift, dict_get, get_or_none.
  destruct (AuthorModel.new _ _) as [o|e]; [|reflexivity].
  unfold session_add, session_commit, flush.
  cbn [objects working committed begin app List.length flush_new insert].
  destruct (insert_author coerce_text now o db) as [[row db']|e];
    [|reflexivity].
  cbn [bind fst snd flush_new flush_deleted object_to_dict nth_error objects
       working].
  unfold object_to_dict. cbn [objects nth_error working].
  now rewrite to_dict_author.
Qed.

Lemma create_author_except_status (e : exn) (s : session) :
  status (fst (create_author_except e s)) = 400
  \/ status (fst (create_author_except e s)) = 500.
Proof. destruct e; simpl; auto. Qed.

Lemma validate_name_returns (key : string) (n v : pyval) :
  Author.validate_name key n = Return v -> v = n /\ truthy n = true.
Proof.
  unfold Author.validate_name. destruct (truthy n); simpl; intros E.
  - injection E as <-. now split.
  - discriminate.
Qed.

Lemma validate_phone_number_returns {U : unicode_database} (key : string) (p v : pyval) :
  Author.validate_phone_number key p = Return v ->
  v = p /\ (p = PNone \/ exists s, p = PStr s).
Proof.
  destruct p as [|b|z|s|l|d]; try (simpl; discriminate).
  - simpl. intros E. injection E as <-. split; [reflexivity | now left].
  - intros E. destruct (validate_phone_number_str key s) as [R|R];
      rewrite R in E.
    + injection E as <-. split; [reflexivity | right; now exists s].
    + discriminate.
Qed.

Lemma author_new_returns {U : unicode_database} (n p : pyval) (o : AuthorModel.t) :
  AuthorModel.new n p = Return o ->
  o = {| AuthorModel.name := n; AuthorModel.phone_number := p |}
  /\ truthy n = true
  /\ Author.validate_phone_number "phone_number" p = Return p.
Proof.
  unfold AuthorModel.new.
  destruct (Author.validate_name "name" n) as [n'|e] eqn:En; [|discriminate].
  apply validate_name_returns in En as [-> Tn]. cbn [bind].
  destruct (Author.validate_phone_number "phone_number" p) as [p'|e] eqn:Ep;
    [|discriminate].
  pose proof Ep as Ep'. apply validate_phone_number_returns in Ep' as [-> _].
  cbn [bind]. intros E. injection E as <-. auto.
Qed.

Lemma insert_author_returns (coerce_text : pyval -> outcome sqlval)
  (now : string) (o : AuthorModel.t) (db db' : database) (row : author_row) :
  insert_author coerce_text now o db = Return (row, db') ->
  to_text coerce_text (AuthorModel.name o) = Return (a_name row)
  /\ is_null (a_name row) = false
  /\ authors db' = authors db ++ [row]
  /\ posts db' = posts db.
Proof.
  unfold insert_author.
  destruct (to_text coerce_text (AuthorModel.name o)) as [nm|e]; [|discriminate].
  destruct (to_text coerce_text (AuthorModel.phone_number o)) as [ph|e];
    [|discriminate].
  cbn [bind]. destruct (is_null nm) eqn:N; [discriminate|].
  destruct (existsb _ _); [discriminate|].
  intros E. injection E as <- <-. cbn. auto.
Qed.

Lemma create_author_201 {U : unicode_database} (coerce_text coerce_integer : pyval -> outcome sqlval)
  (now : string) (data : pyval) (db : database) :
  status (fst (create_author coerce_text coerce_integer now data (begin db))) = 201 ->
  exists d o row db',
    data = PDict d
    /\ AuthorModel.new (get_or_none d "name") (get_or_none d "phone_number")
       = Return o
    /\ insert_author coerce_text now o db = Return (row, db')
    /\ committed (snd (create_author coerce_text coerce_integer now data (begin db)))
       = db'.
Proof.
  intros H.
  assert (exists d, data = PDict d /\ d <> []) as [d [-> Hd]].
  { destruct data as [|b|z|s|l|d]; unfold create_author in H;
      try (destruct (truthy _); discriminate H).
    exists d. split; [reflexivity|]. intros ->. discriminate H. }
  rewrite (create_author_on_dict _ _ _ _ Hd) in H |- *.
  destruct (AuthorModel.new _ _) as [o|e] eqn:En.
  - destruct (insert_author coerce_text now o db) as [[row db']|e] eqn:Ei.
    + exists d, o, row, db'. repeat split; assumption || reflexivity.
    + destruct (create_author_except_status e
                  {| committed := db; working := db;
                     objects := [Pending (NewAuthor o)] |}) as [E|E];
        rewrite E in H; discriminate.
  - destruct (create_author_except_status e (begin db)) as [E|E];
      rewrite E in H; discriminate.
Qed.

Lemma serve_fst (r : route) (db : database) :
  fst (serve r db) = fst (r (begin db)).
Proof. unfold serve. now destruct (r (begin db)). Qed.

Lemma serve_snd (r : route) (db : database) :
  snd (serve r db) = committed (snd (r (begin db))).
Proof. unfold serve. now destruct (r (begin db)). Qed.

Lemma dict_get_returns (data v : pyval) (key : string) :
  dict_get data key = Return v ->
  exists d, data = PDict d /\ v = get_or_none d key.
Proof.
  destruct data as [|b|z|s|l|d]; simpl; try discriminate.
  intros E. injection E as <-. now exists d.
Qed.

Lemma validate_phone_number_digits {U : unicode_database} (key s : string) (v : pyval) :
  Author.validate_phone_number key (PStr s) = Return v -> ten_digits s.
Proof.
  unfold Author.validate_phone_number. rewrite fullmatch_phone. unfold bind.
  pose proof (strip_digits_all 10 s) as S.
  destruct (strip_digits 10 s) as [[|c r]|]; simpl; try discriminate.
  intros _. now apply S.
Qed.

(** No decimal digit is a surrogate, so a string of digits can be bound. *)
Lemma decimal_digit_not_surrogate {U : unicode_database} (c : char) :
  decimal_digit c -> is_surrogate c = false.
Proof.
  intros (zero & d & Hin & Hd & ->).
  pose proof decimal_zeros_scalar as F.
  rewrite forallb_forall in F. specialize (F zero Hin).
  unfold is_surrogate. apply andb_false_iff.
  apply orb_true_iff in F as [F|F].
  - left. apply N.leb_le in F. apply N.leb_gt. lia.
  - right. apply N.ltb_lt in F. apply N.leb_gt. lia.
Qed.

Lemma first_surrogates_none (i : N) (l : list char) :
  (forall c, In c l -> is_surrogate c = false) -> first_surrogates i l = None.
Proof.
  revert i; induction l as [|c l IH]; intros i H; [reflexivity|].
  simpl. rewrite (H c (or_introl eq_refl)). apply IH.
  intros x Hx. apply H. now right.
Qed.

Lemma encode_utf8_digits {U : unicode_database} (s : string) :
  ten_digits s -> encode_utf8 s = Return s.
Proof.
  intros [_ D]. unfold encode_utf8. rewrite first_surrogates_none; [reflexivity|].
  intros c Hc. now apply decimal_digit_not_surrogate, D.
Qed.


Example encode_utf8_lone_surrogate :
  encode_utf8 (String 0xD800%N "")
  = Raise (UnicodeEncodeError
      "'utf-8' codec can't encode character '\ud800' in position 0: surrogates not allowed").
Proof. reflexivity. Qed.

Example encode_utf8_two_surrogates :
  encode_utf8 ("ab" ++ String 0xDC80%N (String 0xDFFF%N "z"))
  = Raise (UnicodeEncodeError
      "'utf-8' codec can't encode characters in position 2-3: surrogates not allowed").
Proof. reflexivity. Qed.

(** The UnicodeEncodeError of a name that cannot be bound is a ValueError
    for the except clauses: the request is answered 400 and nothing is
    stored. *)
Example author_with_surrogate_name_is_400 :
  serve (create_author refuse refuse "2024-01-01 00:00:00"
           author_with_surrogate_name) ann_db
  = (answer_400, ann_db).
Proof. reflexivity. Qed.

(** An author whose phone number is written in Arabic-Indic digits is
    stored. *)
Example author_with_arabic_indic_phone_is_201 :
  let r := serve (create_author refuse refuse "2024-01-01 00:00:00"
                    author_ann_arabic_indic_phone) empty_db in
  status (fst r) = 201
  /\ map a_phone_number (authors (snd r)) = [SqlText arabic_indic_phone].
Proof. split; reflexivity. Qed.

Lemma to_text_validated_phone {U : unicode_database} (coerce_text : pyval -> outcome sqlval)
  (p : pyval) :
  Author.validate_phone_number "phone_number" p = Return p ->
  exists v, to_text coerce_text p = Return v.
Proof.
  intros H. pose proof H as H'.
  apply validate_phone_number_returns in H' as [_ [->|[s ->]]].
  - eexists; reflexivity.
  - apply validate_phone_number_digits, encode_utf8_digits in H.
    cbn [to_text]. rewrite H. eexists; reflexivity.
Qed.

Lemma second_author_route {U : unicode_database}
  (coerce_text coerce_integer : pyval -> outcome sqlval) (now1 now2 : string)
  (d1 d2 : pyval) (db : database) (name phone2 : pyval) :
  status (fst (serve (create_author coerce_text coerce_integer now1 d1) db)) = 201 ->
  dict_get d1 "name" = Return name ->
  dict_get d2 "name" = Return name ->
  dict_get d2 "phone_number" = Return phone2 ->
  Author.validate_phone_number "phone_number" phone2 = Return phone2 ->
  let db1 := snd (serve (create_author coerce_text coerce_integer now1 d1) db) in
  let o := {| AuthorModel.name := name; AuthorModel.phone_number := phone2 |} in
  exists first,
    authors db1 = authors db ++ [first]
    /\ to_text coerce_text name = Return (a_name first)
    /\ AuthorModel.new name phone2 = Return o
    /\ insert_author coerce_text now2 o db1
       = Raise (IntegrityError "UNIQUE constraint failed: authors.name")
    /\ create_author coerce_text coerce_integer now2 d2 (begin db1)
       = create_author_except
           (IntegrityError "UNIQUE constraint failed: authors.name")
           {| committed := db1; working := db1;
              objects := [Pending (NewAuthor o)] |}.
Proof.
  intros H201 Hn1 Hn2 Hp2 Hv2 db1 o. subst db1 o.
  rewrite serve_fst in H201. rewrite (serve_snd _ db).
  apply create_author_201 in H201 as (d & o1 & row & db' & -> & Hnew & Hins & ->).
  apply dict_get_returns in Hn1 as (d0 & E0 & ->). injection E0 as <-.
  apply author_new_returns in Hnew as (-> & Tn & _).
  apply insert_author_returns in Hins as (Htext & Hnull & Hauthors & _).
  cbn [AuthorModel.name] in Htext.
  apply dict_get_returns in Hn2 as (d2' & -> & Hname).
  apply dict_get_returns in Hp2 as (d2'' & E2 & ->). injection E2 as <-.
  assert (d2' <> []) as Hd2.
  { intros ->. rewrite Hname in Tn. discriminate Tn. }
  assert (AuthorModel.new (get_or_none d "name") (get_or_none d2' "phone_number")
          = Return {| AuthorModel.name := get_or_none d "name";
                      AuthorModel.phone_number := get_or_none d2' "phone_number" |})
    as Hnew2.
  { unfold AuthorModel.new, Author.validate_name. rewrite Tn. cbn [negb bind].
    now rewrite Hv2. }
  assert (insert_author coerce_text now2
            {| AuthorModel.name := get_or_none d "name";
               AuthorModel.phone_number := get_or_none d2' "phone_number" |} db'
          = Raise (IntegrityError "UNIQUE constraint failed: authors.name"))
    as Hins2.
  { unfold insert_author. cbn [AuthorModel.name AuthorModel.phone_number].
    rewrite Htext. cbn [bind].
    destruct (to_text_validated_phone coerce_text Hv2) as [ph ->]. cbn [bind].
    rewrite Hnull, Hauthors, map_app, existsb_app. cbn [map existsb].
    now rewrite sqlval_eqb_refl, orb_true_r. }
  exists row. split; [exact Hauthors|]. split; [exact Htext|].
  split; [exact Hnew2|]. split; [exact Hins2|].
  rewrite (create_author_on_dict _ _ _ _ Hd2), <- Hname, Hnew2, Hins2.
  reflexivity.
Qed.

(** C5, amended.  For every pair of POST /authors requests that carry an
    identical name, where the first was answered 201 and the phone number
    of the second passes its validator: the first author is in the store,
    the INSERT of the second violates the UNIQUE constraint on the name
    and raises IntegrityError, the except clauses of the route receive
    that IntegrityError, the session is rolled back, the answer is 400,
    and the store is exactly what the first request left. *)
Theorem second_author_with_same_name_is_refused {U : unicode_database}
  (coerce_text coerce_integer : pyval -> outcome sqlval) (now1 now2 : string)
  (d1 d2 : pyval) (db : database) (name phone2 : pyval) :
  status (fst (serve (create_author coerce_text coerce_integer now1 d1) db)) = 201 ->
  dict_get d1 "name" = Return name ->
  dict_get d2 "name" = Return name ->
  dict_get d2 "phone_number" = Return phone2 ->
  Author.validate_phone_number "phone_number" phone2 = Return phone2 ->
  let db1 := snd (serve (create_author coerce_text coerce_integer now1 d1) db) in
  exists first o,
    authors db1 = authors db ++ [first]
    /\ to_text coerce_text name = Return (a_name first)
    /\ AuthorModel.new name phone2 = Return o
    /\ insert_author coerce_text now2 o db1
       = Raise (IntegrityError "UNIQUE constraint failed: authors.name")
    /\ create_author coerce_text coerce_integer now2 d2 (begin db1)
       = create_author_except
           (IntegrityError "UNIQUE constraint failed: authors.name")
           {| committed := db1; working := db1;
              objects := [Pending (NewAuthor o)] |}
    /\ snd (create_author coerce_text coerce_integer now2 d2 (begin db1))
       = begin db1
    /\ status (fst (serve (create_author coerce_text coerce_integer now2 d2) db1))
       = 400
    /\ snd (serve (create_author coerce_text coerce_integer now2 d2) db1) = db1.
Proof.
  intros H201 Hn1 Hn2 Hp2 Hv2 db1.
  destruct (second_author_route coerce_text coerce_integer now1 now2 d1 d2 db
              H201 Hn1 Hn2 Hp2 Hv2) as (first & Ha & Ht & Hnew & Hins & Hroute).
  fold db1 in Ha, Hins, Hroute.
  exists first. eexists. split; [exact Ha|]. split; [exact Ht|].
  split; [exact Hnew|]. split; [exact Hins|]. split; [exact Hroute|].
  rewrite serve_fst, serve_snd, Hroute. repeat split.
Qed.

Lemma second_author_with_same_name_is_refused_witness :
  let db1 := snd (serve (create_author refuse refuse "2024-01-01 00:00:00"
                           author_ann) empty_db) in
  exists first o,
    authors db1 = authors empty_db ++ [first]
    /\ to_text refuse (PStr "Ann") = Return (a_name first)
    /\ AuthorModel.new (PStr "Ann") (PStr "5551234567") = Return o
    /\ insert_author refuse "2024-01-02 00:00:00" o db1
       = Raise (IntegrityError "UNIQUE constraint failed: authors.name")
    /\ create_author refuse refuse "2024-01-02 00:00:00" author_ann_with_phone
         (begin db1)
       = create_author_except
           (IntegrityError "UNIQUE constraint failed: authors.name")
           {| committed := db1; working := db1;
              objects := [Pending (NewAuthor o)] |}
    /\ snd (create_author refuse refuse "2024-01-02 00:00:00"
              author_ann_with_phone (begin db1))
       = begin db1
    /\ status (fst (serve (create_author refuse refuse "2024-01-02 00:00:00"
                             author_ann_with_phone) db1)) = 400
    /\ snd (serve (create_author refuse refuse "2024-01-02 00:00:00"
                     author_ann_with_phone) db1) = db1.
Proof.
  apply (@second_author_with_same_name_is_refused unicode_14_0 refuse refuse
           "2024-01-01 00:00:00" "2024-01-02 00:00:00"
           author_ann author_ann_with_phone empty_db
           (PStr "Ann") (PStr "5551234567")); reflexivity.
Defined.

(** What the client reads in that 400: the text the except clause hands to
    [bad_request] is a str, so the answer carries the default text of the
    handler, as it does for a missing body. *)
Lemma second_author_answer_has_default_text {U : unicode_database}
  (coerce_text coerce_integer : pyval -> outcome sqlval) (now1 now2 : string)
  (d1 d2 : pyval) (db : database) (name phone2 : pyval) :
  status (fst (serve (create_author coerce_text coerce_integer now1 d1) db)) = 201 ->
  dict_get d1 "name" = Return name ->
  dict_get d2 "name" = Return name ->
  dict_get d2 "phone_number" = Return phone2 ->
  Author.validate_phone_number "phone_number" phone2 = Return phone2 ->
  let db1 := snd (serve (create_author coerce_text coerce_integer now1 d1) db) in
  bad_request (ErrStr "Author with this name already exists.") = answer_400
  /\ fst (serve (create_author coerce_text coerce_integer now2 d2) db1)
     = answer_400.
Proof.
  intros H201 Hn1 Hn2 Hp2 Hv2 db1.
  destruct (second_author_route coerce_text coerce_integer now1 now2 d1 d2 db
              H201 Hn1 Hn2 Hp2 Hv2) as (first & _ & _ & _ & _ & Hroute).
  fold db1 in Hroute. split; [reflexivity|].
  rewrite serve_fst, Hroute. reflexivity.
Qed.

(** The same happens on every store and for every author_id that no
    author has: the post is stored and the answer is 201. *)
Lemma post_for_any_unknown_author_is_stored
  (coerce_text coerce_integer : pyval -> outcome sqlval) (now : string)
  (db : database) (z : Z) :
  in_int64 z = true ->
  references_author db (SqlInteger z) = false ->
  exists row db',
    serve (create_post coerce_text coerce_integer now
             (PDict [("title", PStr "Top Secret");
                     ("content", PStr long_content);
                     ("category", PStr "Fiction");
                     ("author_id", PInt z)])) db
    = (make_response (post_view db' row) 201, db')
    /\ posts db' = posts db ++ [row]
    /\ authors db' = authors db
    /\ p_author_id row = SqlInteger z
    /\ author_of db' row = None.
Proof.
  intros Hz Href. do 2 eexists.
  unfold serve, create_post. cbn [truthy negb].
  unfold try_except, bindM, lift, session_add, session_commit, flush.
  cbn [dict_get lookup String.eqb N.eqb Pos.eqb andb].
  change (PostModel.new (PStr "Top Secret") (PStr long_content) PNone
            (PStr "Fiction") (PInt z))
    with (Return {| PostModel.title := PStr "Top Secret";
                    PostModel.content := PStr long_content;
                    PostModel.summary := PNone;
                    PostModel.category := PStr "Fiction";
                    PostModel.author_id := PInt z |}).
  assert (to_text coerce_text (PStr "Top Secret")
          = Return (SqlText "Top Secret")) as Et by reflexivity.
  assert (to_text coerce_text (PStr long_content)
          = Return (SqlText long_content)) as Ec by reflexivity.
  assert (to_text coerce_text (PStr "Fiction")
          = Return (SqlText "Fiction")) as Eg by reflexivity.
  assert (to_text coerce_text PNone = Return SqlNull) as Es by reflexivity.
  cbn [objects working committed begin app List.length flush_new insert
       insert_post to_integer bind fst snd is_null foreign_keys andb
       PostModel.title PostModel.content PostModel.summary PostModel.category
       PostModel.author_id].
  unfold insert_post.
  cbn [PostModel.title PostModel.content PostModel.summary PostModel.category
       PostModel.author_id to_integer].
  rewrite Et, Ec, Eg, Es, Hz.
  cbn [bind fst snd is_null flush_deleted foreign_keys andb].
  unfold object_to_dict. cbn [objects nth_error working ret].
  rewrite to_dict_post. cbn [committed posts authors p_author_id].
  repeat split.
  unfold author_of. cbn [authors p_author_id].
  unfold references_author in Href. cbn [committed authors].
  destruct (find _ (authors db)) as [a|] eqn:F; [|reflexivity].
  apply find_some in F as [Hin Heq].
  assert (existsb (fun a => sqlval_eqb (SqlInteger z) (SqlInteger (a_id a)))
            (authors db) = true) as E
    by (apply existsb_exists; now exists a).
  congruence.
Qed.

(** * Further properties of the code *)

(** ** The other validators, and the validators off their type *)

(** X1.  The name validator accepts a value exactly when it is truthy and
    raises its ValueError otherwise: a string is accepted exactly when it is
    not empty, None is rejected, and so are 0, false, the empty array and
    the empty object; no type is asked for, so a non-zero number is
    accepted as a name. *)
Theorem validate_name_accepts_iff_truthy (key : string) (v : pyval) :
  (Author.validate_name key v = Return v <-> truthy v = true)
  /\ (truthy v = false ->
      Author.validate_name key v = Raise (ValueError "Author must have a name."))
  /\ (forall s, Author.validate_name key (PStr s) = Return (PStr s)
                <-> 0 < String.length s)
  /\ (forall z, Author.validate_name key (PInt z) = Return (PInt z)
                <-> z <> 0%Z)
  /\ Author.validate_name key PNone = Raise (ValueError "Author must have a name.").
Proof.
  unfold Author.validate_name. split; [|split; [|split; [|split]]].
  - destruct (truthy v); simpl; split; congruence.
  - intros ->. reflexivity.
  - intros s. simpl. destruct s as [|c s]; simpl.
    + split; [discriminate | lia].
    + split; [lia | reflexivity].
  - intros z. simpl. destruct (Z.eqb_spec z 0); simpl.
    + split; [discriminate | contradiction].
    + split; [intros _; assumption | reflexivity].
  - reflexivity.
Qed.

(** X2.  The summary validator accepts a string exactly when it has at most
    250 characters, and accepts None; every falsy value passes unchecked
    whatever its type, and the value is returned unchanged. *)
Theorem validate_summary_accepts_iff (key s : string) :
  (Post.validate_summary key (PStr s) = Return (PStr s)
   <-> String.length s <= 250)
  /\ (Post.validate_summary key (PStr s) = Return (PStr s) \/
      Post.validate_summary key (PStr s) =
      Raise (ValueError "Post summary cannot exceed 250 characters."))
  /\ Post.validate_summary key PNone = Return PNone
  /\ (forall v, truthy v = false -> Post.validate_summary key v = Return v).
Proof.
  unfold Post.validate_summary. split; [|split; [|split]].
  - simpl truthy. destruct (s =? "") eqn:E; simpl.
    + apply string_eqb_eq in E. subst s. simpl. split; [lia | reflexivity].
    + destruct (Nat.ltb_spec 250 (String.length s)).
      * split; [discriminate | lia].
      * split; [intros _; assumption | reflexivity].
  - simpl truthy. destruct (s =? ""); simpl; [now left|].
    destruct (250 <? String.length s)%nat; [now right | now left].
  - reflexivity.
  - intros v ->. reflexivity.
Qed.

Lemma any_in_list (kws : list string) (l : list pyval) :
  any_in kws (PList l)
  = Return (existsb (fun k => existsb (str_eq k) l) kws).
Proof.
  induction kws as [|k kws IH]; simpl; [reflexivity|].
  destruct (existsb (str_eq k) l); simpl; [reflexivity | exact IH].
Qed.

Lemma existsb_str_eq (k : string) (l : list pyval) :
  existsb (str_eq k) l = true <-> In (PStr k) l.
Proof.
  rewrite existsb_exists. split.
  - intros [v [Hin E]]. apply str_eq_true in E. now subst.
  - intros Hin. exists (PStr k). split; [exact Hin | now apply str_eq_true].
Qed.

(** X3.  Off its type the title validator does not test substrings: a JSON
    array is accepted exactly when one of its elements is one of the four
    markers itself (an element that merely contains a marker does not
    count), and None, a number or a boolean raises TypeError instead of
    the ValueError of the rule. *)
Theorem validate_title_off_type (key : string) :
  (forall l, Post.validate_title key (PList l) = Return (PList l)
             <-> exists m, In m ["Won't Believe"; "Secret"; "Top"; "Guess"]
                           /\ In (PStr m) l)
  /\ (forall l, Post.validate_title key (PList l) = Return (PList l)
                \/ exists msg, Post.validate_title key (PList l)
                               = Raise (ValueError msg))
  /\ (exists msg, Post.validate_title key (PList [PStr "Top 10 Secrets"])
                  = Raise (ValueError msg))
  /\ (exists msg, Post.validate_title key PNone = Raise (TypeError msg))
  /\ (forall z, exists msg,
         Post.validate_title key (PInt z) = Raise (TypeError msg))
  /\ (forall b, exists msg,
         Post.validate_title key (PBool b) = Raise (TypeError msg)).
Proof.
  split; [|split; [|split; [|split; [|split]]]];
    try (intros; eexists; reflexivity); try (eexists; reflexivity).
  - intros l. unfold Post.validate_title. rewrite any_in_list. unfold bind.
    destruct (existsb _ Post.clickbait_keywords) eqn:E; simpl.
    + split; [intros _ | reflexivity].
      apply existsb_exists in E as [m [Hin Hm]]. exists m.
      split; [exact Hin | now apply existsb_str_eq].
    + split; [discriminate|]. intros [m [Hin Hm]].
      assert (existsb (fun k => existsb (str_eq k) l) Post.clickbait_keywords
              = true) as E'.
      { apply existsb_exists. exists m.
        split; [exact Hin | now apply existsb_str_eq]. }
      congruence.
  - intros l. unfold Post.validate_title. rewrite any_in_list. unfold bind.
    destruct (existsb _ Post.clickbait_keywords); simpl;
      [now left | right; eexists; reflexivity].
Qed.

(** X4.  Off its type the content validator measures whatever has a
    length: a JSON array is accepted exactly when it has at least 250
    elements; 0, false and the empty containers raise the ValueError of
    the rule, and a non-zero number or true raises TypeError. *)
Theorem validate_content_off_type (key : string) :
  (forall l, Post.validate_content key (PList l) = Return (PList l)
             <-> 250 <= List.length l)
  /\ (forall v, truthy v = false ->
                Post.validate_content key v =
                Raise (ValueError
                         "Post content must be at least 250 characters long."))
  /\ (forall z, z <> 0%Z ->
                exists msg, Post.validate_content key (PInt z)
                            = Raise (TypeError msg))
  /\ (exists msg, Post.validate_content key (PBool true) = Raise (TypeError msg)).
Proof.
  unfold Post.validate_content. split; [|split; [|split]].
  - intros l. destruct l as [|x l]; [simpl; split; [discriminate | lia]|].
    cbn [truthy negb py_len bind].
    destruct (Nat.ltb_spec (List.length (x :: l)) 250).
    + split; [discriminate | lia].
    + split; [intros _; assumption | reflexivity].
  - intros v ->. reflexivity.
  - intros z Hz. simpl. destruct (Z.eqb_spec z 0); [contradiction|].
    eexists. reflexivity.
  - eexists. reflexivity.
Qed.

(** ** The constructors *)

Lemma validate_title_returns (key : string) (t v : pyval) :
  Post.validate_title key t = Return v -> v = t.
Proof.
  unfold Post.validate_title.
  destruct (any_in Post.clickbait_keywords t) as [[|]|e]; simpl;
    intros E; now inversion E.
Qed.

Lemma validate_content_returns (key : string) (c v : pyval) :
  Post.validate_content key c = Return v -> v = c.
Proof.
  unfold Post.validate_content. destruct (truthy c); simpl; [|discriminate].
  destruct (py_len c) as [n|e]; simpl; [|discriminate].
  destruct (n <? 250)%nat; intros E; now inversion E.
Qed.

Lemma validate_summary_returns (key : string) (s v : pyval) :
  Post.validate_summary key s = Return v -> v = s.
Proof.
  unfold Post.validate_summary. destruct (truthy s); simpl.
  - destruct (py_len s) as [n|e]; simpl; [|discriminate].
    destruct (250 <? n)%nat; intros E; now inversion E.
  - intros E. now inversion E.
Qed.

Lemma validate_category_returns (key : string) (g v : pyval) :
  Post.validate_category key g = Return v ->
  v = g /\ (g = PStr "Fiction" \/ g = PStr "Non-Fiction").
Proof.
  unfold Post.validate_category, in_str_list, Post.categories.
  cbn [existsb]. rewrite orb_false_r.
  destruct (str_eq "Fiction" g) eqn:F; simpl.
  - intros E. injection E as <-. apply str_eq_true in F.
    split; [reflexivity | now left].
  - destruct (str_eq "Non-Fiction" g) eqn:N; simpl; [|discriminate].
    intros E. injection E as <-. apply str_eq_true in N.
    split; [reflexivity | now right].
Qed.

(** X5.  The constructors validate the keyword arguments in the order they
    are written and never change a value: Post(...) returns exactly when
    the four validators accept, the object then holds the five arguments
    as given (author_id unchecked), and the first field that fails decides
    the exception, so a bad title hides a bad content. *)
Theorem post_constructor_validates_in_order
  (title content summary category author_id : pyval) :
  (forall o,
      PostModel.new title content summary category author_id = Return o <->
      Post.validate_title "title" title = Return title
      /\ Post.validate_content "content" content = Return content
      /\ Post.validate_summary "summary" summary = Return summary
      /\ Post.validate_category "category" category = Return category
      /\ o = {| PostModel.title := title; PostModel.content := content;
                PostModel.summary := summary; PostModel.category := category;
                PostModel.author_id := author_id |})
  /\ (forall e, Post.validate_title "title" title = Raise e ->
                PostModel.new title content summary category author_id = Raise e)
  /\ (forall e, Post.validate_title "title" title = Return title ->
                Post.validate_content "content" content = Raise e ->
                PostModel.new title content summary category author_id = Raise e).
Proof.
  unfold PostModel.new. split; [|split].
  - intros o. split.
    + destruct (Post.validate_title "title" title) as [t|e] eqn:Et;
        [|discriminate].
      apply validate_title_returns in Et as ->. cbn [bind].
      destruct (Post.validate_content "content" content) as [c|e] eqn:Ec;
        [|discriminate].
      apply validate_content_returns in Ec as ->. cbn [bind].
      destruct (Post.validate_summary "summary" summary) as [s|e] eqn:Es;
        [|discriminate].
      apply validate_summary_returns in Es as ->. cbn [bind].
      destruct (Post.validate_category "category" category) as [g|e] eqn:Eg;
        [|discriminate].
      apply validate_category_returns in Eg as [-> _]. cbn [bind].
      intros E. injection E as <-. repeat split.
    + intros (-> & -> & -> & -> & ->). reflexivity.
  - intros e ->. reflexivity.
  - intros e -> ->. reflexivity.
Qed.

(** The same for Author(...): name first, then phone_number. *)
Lemma author_constructor_validates_in_order {U : unicode_database} (name phone_number : pyval) :
  (forall o,
      AuthorModel.new name phone_number = Return o <->
      Author.validate_name "name" name = Return name
      /\ Author.validate_phone_number "phone_number" phone_number
         = Return phone_number
      /\ o = {| AuthorModel.name := name;
                AuthorModel.phone_number := phone_number |})
  /\ (forall e, Author.validate_name "name" name = Raise e ->
                AuthorModel.new name phone_number = Raise e).
Proof.
  split.
  - intros o. split.
    + intros H. apply author_new_returns in H as (-> & T & P).
      unfold Author.validate_name. rewrite T. auto.
    + intros (N & P & ->). unfold AuthorModel.new. now rewrite N, P.
  - intros e N. unfold AuthorModel.new. now rewrite N.
Qed.

(** ** The POST routes: every answer and what it leaves in the store *)

Lemma create_author_except_answers (e : exn) (s : session) :
  create_author_except e s = (answer_400, rollback s)
  \/ create_author_except e s = (answer_500, rollback s).
Proof. destruct e; simpl; auto. Qed.

Lemma create_post_except_answers (e : exn) (s : session) :
  create_post_except e s = (answer_400, rollback s)
  \/ create_post_except e s = (answer_500, rollback s).
Proof. destruct e; simpl; auto. Qed.

Lemma create_post_on_dict
  (coerce_text coerce_integer : pyval -> outcome sqlval) (now : string)
  (d : list (string * pyval)) (db : database) :
  d <> [] ->
  create_post coerce_text coerce_integer now (PDict d) (begin db) =
  match PostModel.new (get_or_none d "title") (get_or_none d "content")
          (get_or_none d "summary") (get_or_none d "category")
          (get_or_none d "author_id") with
  | Raise e => create_post_except e (begin db)
  | Return o =>
      match insert_post coerce_text coerce_integer foreign_keys now o db with
      | Raise e =>
          create_post_except e
            {| committed := db; working := db;
               objects := [Pending (NewPost o)] |}
      | Return (row, db') =>
          (make_response (post_view db' row) 201,
           {| committed := db'; working := db';
              objects := [Persistent (EPost row)] |})
      end
  end.
Proof.
  intros Hd. destruct d as [|kv d']; [contradiction|].
  unfold create_post. cbn [truthy negb].
  unfold try_except, bindM, lift, dict_get, get_or_none.
  destruct (PostModel.new _ _ _ _ _) as [o|e]; [|reflexivity].
  unfold session_add, session_commit, flush.
  cbn [objects working committed begin app List.length flush_new insert].
  destruct (insert_post coerce_text coerce_integer foreign_keys now o db)
    as [[row db']|e]; [|reflexivity].
  cbn [bind fst snd flush_new flush_deleted].
  unfold object_to_dict. cbn [objects nth_error working].
  now rewrite to_dict_post.
Qed.

Lemma create_author_falsy {U : unicode_database}
  (coerce_text coerce_integer : pyval -> outcome sqlval) (now : string)
  (data : pyval) (s : session) :
  truthy data = false ->
  create_author coerce_text coerce_integer now data s = (answer_400, s).
Proof. intros T. unfold create_author. now rewrite T. Qed.

Lemma create_post_falsy
  (coerce_text coerce_integer : pyval -> outcome sqlval) (now : string)
  (data : pyval) (s : session) :
  truthy data = false ->
  create_post coerce_text coerce_integer now data s = (answer_400, s).
Proof. intros T. unfold create_post. now rewrite T. Qed.

Lemma create_author_not_object {U : unicode_database}
  (coerce_text coerce_integer : pyval -> outcome sqlval) (now : string)
  (data : pyval) (s : session) :
  truthy data = true -> (forall d, data <> PDict d) ->
  create_author coerce_text coerce_integer now data s = (answer_500, rollback s).
Proof.
  intros T N. unfold create_author. rewrite T. cbn [negb].
  destruct data as [|b|z|t|l|d]; try reflexivity. now destruct (N d).
Qed.

Lemma create_post_not_object
  (coerce_text coerce_integer : pyval -> outcome sqlval) (now : string)
  (data : pyval) (s : session) :
  truthy data = true -> (forall d, data <> PDict d) ->
  create_post coerce_text coerce_integer now data s = (answer_500, rollback s).
Proof.
  intros T N. unfold create_post. rewrite T. cbn [negb].
  destruct data as [|b|z|t|l|d]; try reflexivity. now destruct (N d).
Qed.

(** X6.  What the two POST routes answer to a body that is not a usable
    object.  Every falsy body (null, the empty object, the empty array, the
    empty string, 0, false) is answered 400 without touching the session.
    Every truthy body that is not an object (a non-empty array or string, a
    non-zero number, true) makes [data.get] raise AttributeError inside the
    try block and is answered 500, the session rolled back. *)
Theorem post_routes_on_unusable_bodies {U : unicode_database}
  (coerce_text coerce_integer : pyval -> outcome sqlval) (now : string)
  (data : pyval) (s : session) :
  (truthy data = false ->
   create_author coerce_text coerce_integer now data s = (answer_400, s)
   /\ create_post coerce_text coerce_integer now data s = (answer_400, s))
  /\ (truthy data = true -> (forall d, data <> PDict d) ->
      create_author coerce_text coerce_integer now data s
      = (answer_500, rollback s)
      /\ create_post coerce_text coerce_integer now data s
         = (answer_500, rollback s)).
Proof.
  split.
  - intros T. split; [now apply create_author_falsy | now apply create_post_falsy].
  - intros T N.
    split; [now apply create_author_not_object | now apply create_post_not_object].
Qed.

Lemma post_routes_on_unusable_bodies_witness :
  (create_author refuse refuse "2024-01-01 00:00:00" (PList []) (begin ann_db)
   = (answer_400, begin ann_db)
   /\ create_post refuse refuse "2024-01-01 00:00:00" (PList []) (begin ann_db)
      = (answer_400, begin ann_db))
  /\ (create_author refuse refuse "2024-01-01 00:00:00"
        (PList [author_ann]) (begin ann_db)
      = (answer_500, rollback (begin ann_db))
      /\ create_post refuse refuse "2024-01-01 00:00:00"
           (PList [author_ann]) (begin ann_db)
         = (answer_500, rollback (begin ann_db))).
Proof.
  split.
  - apply (proj1 (@post_routes_on_unusable_bodies unicode_14_0 refuse refuse
                    "2024-01-01 00:00:00" (PList []) (begin ann_db))).
    reflexivity.
  - apply (proj2 (@post_routes_on_unusable_bodies unicode_14_0 refuse refuse
                    "2024-01-01 00:00:00" (PList [author_ann]) (begin ann_db))).
    + reflexivity.
    + discriminate.
Defined.

Lemma existsb_sqlval_false (v : sqlval) (l : list sqlval) :
  existsb (sqlval_eqb v) l = false -> ~ In v l.
Proof.
  intros E Hin.
  assert (existsb (sqlval_eqb v) l = true) as E'
    by (apply existsb_exists; exists v; split;
        [exact Hin | apply sqlval_eqb_refl]).
  congruence.
Qed.

Lemma is_null_false (v : sqlval) : is_null v = false -> v <> SqlNull.
Proof. intros E ->. discriminate. Qed.

Lemma to_text_validated_phone_valid {U : unicode_database} (coerce_text : pyval -> outcome sqlval)
  (p : pyval) (v : sqlval) :
  Author.validate_phone_number "phone_number" p = Return p ->
  to_text coerce_text p = Return v -> valid_phone v.
Proof.
  intros H T. pose proof H as H'.
  apply validate_phone_number_returns in H' as [_ [->|[s ->]]].
  - injection T as <-. now left.
  - pose proof (validate_phone_number_digits _ _ H) as D.
    cbn [to_text] in T. rewrite (encode_utf8_digits D) in T.
    injection T as <-. right. exists s. now split.
Qed.

Lemma insert_author_row (coerce_text : pyval -> outcome sqlval)
  (now : string) (o : AuthorModel.t) (db db' : database) (row : author_row) :
  insert_author coerce_text now o db = Return (row, db') ->
  db' = {| authors := authors db ++ [row]; posts := posts db |}
  /\ a_id row = next_id (map a_id (authors db))
  /\ to_text coerce_text (AuthorModel.name o) = Return (a_name row)
  /\ to_text coerce_text (AuthorModel.phone_number o)
     = Return (a_phone_number row)
  /\ a_name row <> SqlNull
  /\ ~ In (a_name row) (map a_name (authors db))
  /\ a_created_at row = SqlText now
  /\ a_updated_at row = SqlNull.
Proof.
  unfold insert_author.
  destruct (to_text coerce_text (AuthorModel.name o)) as [nm|e]; [|discriminate].
  destruct (to_text coerce_text (AuthorModel.phone_number o)) as [ph|e];
    [|discriminate].
  cbn [bind]. destruct (is_null nm) eqn:N; [discriminate|].
  destruct (existsb _ _) eqn:U; [discriminate|].
  intros E. injection E as <- <-. cbn.
  repeat split; auto using is_null_false, existsb_sqlval_false.
Qed.

Lemma create_author_result {U : unicode_database}
  (coerce_text coerce_integer : pyval -> outcome sqlval) (now : string)
  (data : pyval) (db : database) :
  serve (create_author coerce_text coerce_integer now data) db = (answer_400, db)
  \/ serve (create_author coerce_text coerce_integer now data) db
     = (answer_500, db)
  \/ exists row,
       let db' := {| authors := authors db ++ [row]; posts := posts db |} in
       serve (create_author coerce_text coerce_integer now data) db
       = (make_response (author_view db' row) 201, db')
       /\ a_id row = next_id (map a_id (authors db))
       /\ a_name row <> SqlNull
       /\ ~ In (a_name row) (map a_name (authors db))
       /\ valid_phone (a_phone_number row)
       /\ a_created_at row = SqlText now
       /\ a_updated_at row = SqlNull.
Proof.
  unfold serve.
  destruct (truthy data) eqn:T.
  2:{ left. now rewrite (create_author_falsy _ _ _ _ _ T). }
  destruct data as [|b|z|t|l|d];
    try (right; left;
         rewrite (create_author_not_object _ _ _ _ T ltac:(discriminate));
         reflexivity).
  assert (d <> []) as Hd by (intros ->; discriminate T).
  rewrite (create_author_on_dict _ _ _ _ Hd).
  destruct (AuthorModel.new _ _) as [o|e] eqn:En.
  - destruct (insert_author coerce_text now o db) as [[row db']|e] eqn:Ei.
    + right; right. exists row.
      apply author_new_returns in En as (-> & _ & Hp).
      apply insert_author_row in Ei
        as (-> & Hid & _ & Hph & Hnn & Hnew & Hc & Hu).
      cbn [AuthorModel.phone_number] in Hph.
      cbn [committed]. repeat split; auto.
      eapply to_text_validated_phone_valid; eassumption.
    + destruct (create_author_except_answers e
                  {| committed := db; working := db;
                     objects := [Pending (NewAuthor o)] |}) as [-> | ->];
        [left | right; left]; reflexivity.
  - destruct (create_author_except_answers e (begin db)) as [-> | ->];
      [left | right; left]; reflexivity.
Qed.

(** X7.  POST /authors has three outcomes and no other.  It answers the
    fixed 400 or the fixed 500 and leaves the store as it was; or it
    answers 201 with the serialized author and the store has gained
    exactly one author row and no post: the row has the next id, the
    creation time, no update time, a name that is not NULL and that no
    earlier author has, and a phone number that is NULL or ten decimal
    digits (of any script, as the pattern accepts them). *)
Theorem create_author_outcome {U : unicode_database}
  (coerce_text coerce_integer : pyval -> outcome sqlval) (now : string)
  (data : pyval) (db : database) :
  let r := serve (create_author coerce_text coerce_integer now data) db in
  (snd r = db /\ (fst r = answer_400 \/ fst r = answer_500))
  \/ (status (fst r) = 201
      /\ exists row,
           snd r = {| authors := authors db ++ [row]; posts := posts db |}
           /\ body (fst r) = author_view (snd r) row
           /\ a_id row = next_id (map a_id (authors db))
           /\ a_name row <> SqlNull
           /\ ~ In (a_name row) (map a_name (authors db))
           /\ valid_phone (a_phone_number row)
           /\ a_created_at row = SqlText now
           /\ a_updated_at row = SqlNull).
Proof.
  intros r. subst r.
  destruct (create_author_result coerce_text coerce_integer now data db)
    as [E | [E | [row [E F]]]]; rewrite E.
  - left. split; [reflexivity | now left].
  - left. split; [reflexivity | now right].
  - right. split; [reflexivity|]. exists row. cbn [fst snd body make_response].
    split; [reflexivity|]. split; [reflexivity | exact F].
Qed.

Lemma post_new_returns (t c s g a : pyval) (o : PostModel.t) :
  PostModel.new t c s g a = Return o ->
  o = {| PostModel.title := t; PostModel.content := c; PostModel.summary := s;
         PostModel.category := g; PostModel.author_id := a |}
  /\ (g = PStr "Fiction" \/ g = PStr "Non-Fiction").
Proof.
  unfold PostModel.new.
  destruct (Post.validate_title "title" t) as [t'|e] eqn:Et; [|discriminate].
  apply validate_title_returns in Et as ->. cbn [bind].
  destruct (Post.validate_content "content" c) as [c'|e] eqn:Ec; [|discriminate].
  apply validate_content_returns in Ec as ->. cbn [bind].
  destruct (Post.validate_summary "summary" s) as [s'|e] eqn:Es; [|discriminate].
  apply validate_summary_returns in Es as ->. cbn [bind].
  destruct (Post.validate_category "category" g) as [g'|e] eqn:Eg; [|discriminate].
  apply validate_category_returns in Eg as [-> Hg]. cbn [bind].
  intros E. injection E as <-. now split.
Qed.

Lemma insert_post_row (coerce_text coerce_integer : pyval -> outcome sqlval)
  (fk : bool) (now : string) (o : PostModel.t) (db db' : database)
  (row : post_row) :
  insert_post coerce_text coerce_integer fk now o db = Return (row, db') ->
  db' = {| authors := authors db; posts := posts db ++ [row] |}
  /\ p_id row = next_id (map p_id (posts db))
  /\ to_text coerce_text (PostModel.category o) = Return (p_category row)
  /\ p_title row <> SqlNull
  /\ p_author_id row <> SqlNull
  /\ p_created_at row = SqlText now
  /\ p_updated_at row = SqlNull.
Proof.
  unfold insert_post.
  destruct (to_text coerce_text (PostModel.title o)) as [t|e]; [|discriminate].
  destruct (to_text coerce_text (PostModel.content o)) as [c|e]; [|discriminate].
  destruct (to_text coerce_text (PostModel.category o)) as [g|e]; [|discriminate].
  destruct (to_text coerce_text (PostModel.summary o)) as [s|e]; [|discriminate].
  destruct (to_integer coerce_integer (PostModel.author_id o)) as [a|e];
    [|discriminate].
  cbn [bind]. destruct (is_null t) eqn:Nt; [discriminate|].
  destruct (is_null a) eqn:Na; [discriminate|].
  destruct (fk && _); [discriminate|].
  intros E. injection E as <- <-. cbn.
  repeat split; auto using is_null_false.
Qed.

Lemma create_post_result
  (coerce_text coerce_integer : pyval -> outcome sqlval) (now : string)
  (data : pyval) (db : database) :
  serve (create_post coerce_text coerce_integer now data) db = (answer_400, db)
  \/ serve (create_post coerce_text coerce_integer now data) db
     = (answer_500, db)
  \/ exists row,
       let db' := {| authors := authors db; posts := posts db ++ [row] |} in
       serve (create_post coerce_text coerce_integer now data) db
       = (make_response (post_view db' row) 201, db')
       /\ p_id row = next_id (map p_id (posts db))
       /\ valid_category (p_category row)
       /\ p_title row <> SqlNull
       /\ p_author_id row <> SqlNull
       /\ p_created_at row = SqlText now
       /\ p_updated_at row = SqlNull.
Proof.
  unfold serve.
  destruct (truthy data) eqn:T.
  2:{ left. now rewrite (create_post_falsy _ _ _ _ _ T). }
  destruct data as [|b|z|t|l|d];
    try (right; left;
         rewrite (create_post_not_object _ _ _ _ T ltac:(discriminate));
         reflexivity).
  assert (d <> []) as Hd by (intros ->; discriminate T).
  rewrite (create_post_on_dict _ _ _ _ Hd).
  destruct (PostModel.new _ _ _ _ _) as [o|e] eqn:En.
  - destruct (insert_post coerce_text coerce_integer foreign_keys now o db)
      as [[row db']|e] eqn:Ei.
    + right; right. exists row.
      apply post_new_returns in En as (-> & Hg).
      apply insert_post_row in Ei as (-> & Hid & Hcat & Ht & Ha & Hc & Hu).
      cbn [PostModel.category] in Hcat.
      cbn [committed]. repeat split; auto.
      destruct Hg as [Hg|Hg]; rewrite Hg in Hcat; injection Hcat as <-;
        [now left | now right].
    + destruct (create_post_except_answers e
                  {| committed := db; working := db;
                     objects := [Pending (NewPost o)] |}) as [-> | ->];
        [left | right; left]; reflexivity.
  - destruct (create_post_except_answers e (begin db)) as [-> | ->];
      [left | right; left]; reflexivity.
Qed.

(** X8.  POST /posts has the same three outcomes: the fixed 400 or the
    fixed 500 with the store as it was, or 201 with the serialized post
    and exactly one more post row and no other change; the row has the
    next id, the creation time, no update time, a title and an author_id
    that are not NULL, and the category Fiction or Non-Fiction. *)
Theorem create_post_outcome
  (coerce_text coerce_integer : pyval -> outcome sqlval) (now : string)
  (data : pyval) (db : database) :
  let r := serve (create_post coerce_text coerce_integer now data) db in
  (snd r = db /\ (fst r = answer_400 \/ fst r = answer_500))
  \/ (status (fst r) = 201
      /\ exists row,
           snd r = {| authors := authors db; posts := posts db ++ [row] |}
           /\ body (fst r) = post_view (snd r) row
           /\ p_id row = next_id (map p_id (posts db))
           /\ valid_category (p_category row)
           /\ p_title row <> SqlNull
           /\ p_author_id row <> SqlNull
           /\ p_created_at row = SqlText now
           /\ p_updated_at row = SqlNull).
Proof.
  intros r. subst r.
  destruct (create_post_result coerce_text coerce_integer now data db)
    as [E | [E | [row [E F]]]]; rewrite E.
  - left. split; [reflexivity | now left].
  - left. split; [reflexivity | now right].
  - right. split; [reflexivity|]. exists row. cbn [fst snd body make_response].
    split; [reflexivity|]. split; [reflexivity | exact F].
Qed.

(** ** The GET routes *)

Lemma to_dict_each_authors (l : list author_row) (s : session) :
  to_dict_each (map EAuthor l) s
  = (Return (map (author_view (working s)) l), s).
Proof.
  induction l as [|a l IH]; [reflexivity|].
  cbn [map to_dict_each]. unfold bindM, entity_to_dict.
  rewrite to_dict_author. fold (to_dict_each (map EAuthor l)).
  unfold bindM in IH. now rewrite IH.
Qed.

Lemma to_dict_each_posts (l : list post_row) (s : session) :
  to_dict_each (map EPost l) s
  = (Return (map (post_view (working s)) l), s).
Proof.
  induction l as [|a l IH]; [reflexivity|].
  cbn [map to_dict_each]. unfold bindM, entity_to_dict.
  rewrite to_dict_post. fold (to_dict_each (map EPost l)).
  unfold bindM in IH. now rewrite IH.
Qed.

Lemma get_authors_answer (s : session) :
  get_authors s
  = (make_response (PList (map (author_view (working s)) (authors (working s))))
       200, s).
Proof.
  unfold get_authors, try_except, bindM, query_all_authors.
  now rewrite to_dict_each_authors.
Qed.

Lemma get_posts_answer (s : session) :
  get_posts s
  = (make_response (PList (map (post_view (working s)) (posts (working s))))
       200, s).
Proof.
  unfold get_posts, try_except, bindM, query_all_posts.
  now rewrite to_dict_each_posts.
Qed.

Lemma in_int64_of_N (id : N) :
  in_int64 (Z.of_N id) = (Z.of_N id <? 2 ^ 63)%Z.
Proof.
  unfold in_int64. destruct (Z.leb_spec (- 2 ^ 63) (Z.of_N id)); [reflexivity|].
  lia.
Qed.

Lemma get_author_by_id_answer (id : N) (s : session) :
  get_author_by_id id s
  = match query_get_author (working s) id with
    | Return (Some a) => (make_response (author_view (working s) a) 200, s)
    | Return None => (answer_404, s)
    | Raise _ => (answer_unhandled, rollback s)
    end.
Proof.
  unfold get_author_by_id.
  destruct (query_get_author (working s) id) as [[a|]|e]; try reflexivity.
  unfold try_except, bindM, entity_to_dict. now rewrite to_dict_author.
Qed.

Lemma get_post_by_id_answer (id : N) (s : session) :
  get_post_by_id id s
  = match query_get_post (working s) id with
    | Return (Some p) => (make_response (post_view (working s) p) 200, s)
    | Return None => (answer_404, s)
    | Raise _ => (answer_unhandled, rollback s)
    end.
Proof.
  unfold get_post_by_id.
  destruct (query_get_post (working s) id) as [[p|]|e]; try reflexivity.
  unfold try_except, bindM, entity_to_dict. now rewrite to_dict_post.
Qed.

Lemma get_author_by_id_store (id : N) (db : database) :
  snd (serve (get_author_by_id id) db) = db.
Proof.
  unfold serve. rewrite get_author_by_id_answer.
  now destruct (query_get_author (working (begin db)) id) as [[a|]|e].
Qed.

Lemma get_post_by_id_store (id : N) (db : database) :
  snd (serve (get_post_by_id id) db) = db.
Proof.
  unfold serve. rewrite get_post_by_id_answer.
  now destruct (query_get_post (working (begin db)) id) as [[p|]|e].
Qed.

(** X9.  GET /authors/<id> and GET /posts/<id> on every store and for
    every id the URL rule lets through.  The store is unchanged.  For an id
    below 2^63 the answer is the fixed 404 exactly when no row has that id,
    and otherwise 200 with the serialized row of that id; the text built
    for the 404 does not reach the answer.  For an id from 2^63 on, the
    query, which stands before the try, raises OverflowError and the answer
    is 500. *)
Theorem get_by_id_answers (db : database) (id : N) :
  (snd (serve (get_author_by_id id) db) = db
   /\ (((Z.of_N id < 2 ^ 63)%Z
        /\ fst (serve (get_author_by_id id) db) = answer_404
        /\ forall a, In a (authors db) -> a_id a <> Z.of_N id)
       \/ ((Z.of_N id < 2 ^ 63)%Z
           /\ exists a, In a (authors db) /\ a_id a = Z.of_N id
                        /\ fst (serve (get_author_by_id id) db)
                           = make_response (author_view db a) 200)
       \/ ((2 ^ 63 <= Z.of_N id)%Z
           /\ query_get_author db id
              = Raise (OverflowError
                         "Python int too large to convert to SQLite INTEGER")
           /\ status (fst (serve (get_author_by_id id) db)) = 500)))
  /\ (snd (serve (get_post_by_id id) db) = db
      /\ (((Z.of_N id < 2 ^ 63)%Z
           /\ fst (serve (get_post_by_id id) db) = answer_404
           /\ forall p, In p (posts db) -> p_id p <> Z.of_N id)
          \/ ((Z.of_N id < 2 ^ 63)%Z
              /\ exists p, In p (posts db) /\ p_id p = Z.of_N id
                           /\ fst (serve (get_post_by_id id) db)
                              = make_response (post_view db p) 200)
          \/ ((2 ^ 63 <= Z.of_N id)%Z
              /\ query_get_post db id
                 = Raise (OverflowError
                            "Python int too large to convert to SQLite INTEGER")
              /\ status (fst (serve (get_post_by_id id) db)) = 500))).
Proof.
  split; (split; [apply get_author_by_id_store || apply get_post_by_id_store|]).
  - unfold serve. rewrite get_author_by_id_answer.
    cbn [working begin]. unfold query_get_author. rewrite in_int64_of_N.
    destruct (Z.ltb_spec (Z.of_N id) (2 ^ 63)) as [L|L].
    + destruct (find _ (authors db)) as [a|] eqn:F.
      * right; left. split; [exact L|]. exists a.
        apply find_some in F as [Hin E]. apply Z.eqb_eq in E. auto.
      * left. split; [exact L|]. split; [reflexivity|]. intros a Hin E.
        pose proof (find_none _ _ F a Hin) as N. cbn beta in N.
        rewrite E, Z.eqb_refl in N. discriminate.
    + right; right. split; [exact L|]. split; reflexivity.
  - unfold serve. rewrite get_post_by_id_answer.
    cbn [working begin]. unfold query_get_post. rewrite in_int64_of_N.
    destruct (Z.ltb_spec (Z.of_N id) (2 ^ 63)) as [L|L].
    + destruct (find _ (posts db)) as [p|] eqn:F.
      * right; left. split; [exact L|]. exists p.
        apply find_some in F as [Hin E]. apply Z.eqb_eq in E. auto.
      * left. split; [exact L|]. split; [reflexivity|]. intros p Hin E.
        pose proof (find_none _ _ F p Hin) as N. cbn beta in N.
        rewrite E, Z.eqb_refl in N. discriminate.
    + right; right. split; [exact L|]. split; reflexivity.
Qed.

(** An id of 2^63 is answered 500 on every store, whether or not the store
    is empty. *)
Example get_author_by_id_overflow (db : database) :
  status (fst (serve (get_author_by_id (2 ^ 63)) db)) = 500
  /\ status (fst (serve (get_post_by_id (2 ^ 63)) db)) = 500
  /\ status (fst (serve (get_author_by_id (2 ^ 63 - 1)) empty_db)) = 404.
Proof. repeat split. Qed.

Lemma find_unique_id {A : Type} (key : A -> Z) (l : list A) (x : A) :
  NoDup (map key l) -> In x l ->
  find (fun y => (key y =? key x)%Z) l = Some x.
Proof.
  induction l as [|y l IH]; intros ND Hin; [destruct Hin|].
  cbn [map] in ND. inversion ND as [|? ? Hnot ND']. subst.
  cbn [find]. destruct Hin as [-> | Hin].
  - now rewrite Z.eqb_refl.
  - destruct (Z.eqb_spec (key y) (key x)) as [E|_]; [|now apply IH].
    exfalso. apply Hnot. rewrite E. now apply in_map.
Qed.

(** X10.  GET /authors and GET /posts answer 200 with one serialized
    entry for every row, in the order of the table, and leave the store
    unchanged; where the ids of the table are pairwise different, the
    entry of a row is what GET by its id answers, for every id below 2^63
    (SQLite has no larger rowid). *)
Theorem get_all_lists_every_row (db : database) :
  serve get_authors db
  = (make_response (PList (map (author_view db) (authors db))) 200, db)
  /\ serve get_posts db
     = (make_response (PList (map (post_view db) (posts db))) 200, db)
  /\ (NoDup (map a_id (authors db)) ->
      forall a id, In a (authors db) -> a_id a = Z.of_N id ->
                   (Z.of_N id < 2 ^ 63)%Z ->
                   fst (serve (get_author_by_id id) db)
                   = make_response (author_view db a) 200)
  /\ (NoDup (map p_id (posts db)) ->
      forall p id, In p (posts db) -> p_id p = Z.of_N id ->
                   (Z.of_N id < 2 ^ 63)%Z ->
                   fst (serve (get_post_by_id id) db)
                   = make_response (post_view db p) 200).
Proof.
  unfold serve.
  rewrite get_authors_answer, get_posts_answer.
  split; [reflexivity|]. split; [reflexivity|]. split.
  - intros ND a id Hin E L. rewrite get_author_by_id_answer.
    cbn [fst working begin]. unfold query_get_author.
    rewrite in_int64_of_N. apply Z.ltb_lt in L. rewrite L.
    rewrite <- E. now rewrite (find_unique_id a_id _ _ ND Hin).
  - intros ND p id Hin E L. rewrite get_post_by_id_answer.
    cbn [fst working begin]. unfold query_get_post.
    rewrite in_int64_of_N. apply Z.ltb_lt in L. rewrite L.
    rewrite <- E. now rewrite (find_unique_id p_id _ _ ND Hin).
Qed.

(** ** Round trips: what was created can be fetched *)

Lemma next_id_fresh (ids : list Z) (x : Z) :
  In x ids -> (x < next_id ids)%Z.
Proof.
  unfold next_id. induction ids as [|y ids IH]; intros Hin; [destruct Hin|].
  cbn [fold_right]. destruct Hin as [-> | Hin]; [lia|].
  specialize (IH Hin). lia.
Qed.

Lemma next_id_positive (ids : list Z) : (1 <= next_id ids)%Z.
Proof.
  unfold next_id. induction ids as [|y ids IH]; cbn [fold_right]; lia.
Qed.

Lemma find_new_row {A : Type} (key : A -> Z) (l : list A) (x : A) :
  key x = next_id (map key l) ->
  find (fun y => (key y =? key x)%Z) (l ++ [x]) = Some x.
Proof.
  intros E.
  assert (forall y, In y l -> (key y =? key x)%Z = false) as Hno.
  { intros y Hin. apply Z.eqb_neq. rewrite E.
    pose proof (next_id_fresh (map key l) (key y) (in_map key l y Hin)). lia. }
  clear E. induction l as [|y l IH]; cbn [app find].
  - now rewrite Z.eqb_refl.
  - rewrite (Hno y (or_introl eq_refl)). apply IH.
    intros z Hz. apply Hno. now right.
Qed.

Lemma next_id_in_range (ids : list Z) :
  (forall x, In x ids -> (x < 2 ^ 63 - 1)%Z) -> (next_id ids < 2 ^ 63)%Z.
Proof.
  unfold next_id. induction ids as [|y ids IH]; intros H; cbn [fold_right].
  - lia.
  - pose proof (H y (or_introl eq_refl)).
    assert (Z.succ (fold_right Z.max 0%Z ids) < 2 ^ 63)%Z
      by (apply IH; intros x Hx; apply H; now right).
    lia.
Qed.

(** X11.  Round trip for authors, on every store whose table authors has
    not reached the last rowid, 2^63 - 1: whenever POST /authors answers
    201, a GET /authors/<id> with the id of the answer, served next,
    answers 200 with the very body the 201 carried, and changes nothing. *)
Theorem created_author_can_be_fetched {U : unicode_database}
  (coerce_text coerce_integer : pyval -> outcome sqlval) (now : string)
  (data : pyval) (db : database) :
  let created := serve (create_author coerce_text coerce_integer now data) db in
  (forall a, In a (authors db) -> (a_id a < 2 ^ 63 - 1)%Z) ->
  status (fst created) = 201 ->
  exists id items,
    body (fst created) = PDict items
    /\ lookup "id" items = Some (PInt (Z.of_N id))
    /\ serve (get_author_by_id id) (snd created)
       = (make_response (body (fst created)) 200, snd created).
Proof.
  intros created Hr H. subst created.
  destruct (create_author_result coerce_text coerce_integer now data db)
    as [E | [E | [row [E (Hid & _)]]]]; rewrite E in H |- *;
    try discriminate H.
  cbn [fst snd body make_response].
  exists (Z.to_N (a_id row)). eexists. split; [reflexivity|].
  assert (Z.of_N (Z.to_N (a_id row)) = a_id row) as Hz.
  { pose proof (next_id_positive (map a_id (authors db))).
    rewrite Z2N.id; lia. }
  split; [cbn; now rewrite Hz|].
  assert (a_id row < 2 ^ 63)%Z as L.
  { rewrite Hid. apply next_id_in_range. intros x Hx.
    apply in_map_iff in Hx as (a & <- & Ha). now apply Hr. }
  unfold serve. rewrite get_author_by_id_answer.
  cbn [working begin committed]. unfold query_get_author.
  rewrite in_int64_of_N, Hz. apply Z.ltb_lt in L. rewrite L.
  cbn [authors]. now rewrite (find_new_row a_id _ _ Hid).
Qed.

Lemma created_author_can_be_fetched_witness :
  let created := serve (create_author refuse refuse "2024-01-01 00:00:00"
                          author_ann_with_phone) empty_db in
  exists id items,
    body (fst created) = PDict items
    /\ lookup "id" items = Some (PInt (Z.of_N id))
    /\ serve (get_author_by_id id) (snd created)
       = (make_response (body (fst created)) 200, snd created).
Proof.
  apply (@created_author_can_be_fetched unicode_14_0 refuse refuse "2024-01-01 00:00:00"
           author_ann_with_phone empty_db).
  - intros a [].
  - reflexivity.
Defined.

(** X12.  Round trip for posts, on every store whose table posts has not
    reached the last rowid, 2^63 - 1: whenever POST /posts answers 201, a
    GET /posts/<id> with the id of the answer, served next, answers 200
    with the very body the 201 carried. *)
Theorem created_post_can_be_fetched
  (coerce_text coerce_integer : pyval -> outcome sqlval) (now : string)
  (data : pyval) (db : database) :
  let created := serve (create_post coerce_text coerce_integer now data) db in
  (forall p, In p (posts db) -> (p_id p < 2 ^ 63 - 1)%Z) ->
  status (fst created) = 201 ->
  exists id items,
    body (fst created) = PDict items
    /\ lookup "id" items = Some (PInt (Z.of_N id))
    /\ serve (get_post_by_id id) (snd created)
       = (make_response (body (fst created)) 200, snd created).
Proof.
  intros created Hr H. subst created.
  destruct (create_post_result coerce_text coerce_integer now data db)
    as [E | [E | [row [E (Hid & _)]]]]; rewrite E in H |- *;
    try discriminate H.
  cbn [fst snd body make_response].
  exists (Z.to_N (p_id row)). eexists. split; [reflexivity|].
  assert (Z.of_N (Z.to_N (p_id row)) = p_id row) as Hz.
  { pose proof (next_id_positive (map p_id (posts db))).
    rewrite Z2N.id; lia. }
  split; [cbn; now rewrite Hz|].
  assert (p_id row < 2 ^ 63)%Z as L.
  { rewrite Hid. apply next_id_in_range. intros x Hx.
    apply in_map_iff in Hx as (p & <- & Hp). now apply Hr. }
  unfold serve. rewrite get_post_by_id_answer.
  cbn [working begin committed]. unfold query_get_post.
  rewrite in_int64_of_N, Hz. apply Z.ltb_lt in L. rewrite L.
  cbn [posts]. now rewrite (find_new_row p_id _ _ Hid).
Qed.

Lemma created_post_can_be_fetched_witness :
  let created := serve (create_post refuse refuse "2024-01-01 00:00:00"
                          post_for_author_999) ann_db in
  exists id items,
    body (fst created) = PDict items
    /\ lookup "id" items = Some (PInt (Z.of_N id))
    /\ serve (get_post_by_id id) (snd created)
       = (make_response (body (fst created)) 200, snd created).
Proof.
  apply (@created_post_can_be_fetched refuse refuse "2024-01-01 00:00:00"
           post_for_author_999 ann_db).
  - intros p [<- | []]. reflexivity.
  - reflexivity.
Defined.

(** ** What every run of requests keeps *)

Lemma NoDup_snoc {A : Type} (l : list A) (x : A) :
  NoDup l -> ~ In x l -> NoDup (l ++ [x]).
Proof.
  intros ND Hx.
  apply NoDup_app; [exact ND | apply NoDup_cons; [intros [] | apply NoDup_nil] |].
  intros a Ha [<- | []]. contradiction.
Qed.

Lemma next_id_not_in (ids : list Z) : ~ In (next_id ids) ids.
Proof. intros Hin. apply next_id_fresh in Hin. lia. Qed.

Lemma store_ok_empty {U : unicode_database} : store_ok empty_db.
Proof.
  constructor; cbn [empty_db authors posts map];
    try apply NoDup_nil; intros ? [].
Qed.

Lemma create_author_keeps_store_ok {U : unicode_database}
  (coerce_text coerce_integer : pyval -> outcome sqlval) (now : string)
  (data : pyval) (db : database) :
  store_ok db ->
  store_ok (snd (serve (create_author coerce_text coerce_integer now data) db)).
Proof.
  intros OK.
  destruct (create_author_result coerce_text coerce_integer now data db)
    as [E | [E | [row [E (Hid & Hnn & Hnew & Hph & _)]]]]; rewrite E;
    try exact OK.
  destruct OK as [NU NP PV AU PU PO]. cbn [snd].
  constructor; cbn [authors posts]; try assumption.
  - rewrite map_app. now apply NoDup_snoc.
  - intros a Ha. apply in_app_or in Ha as [Ha | [<- | []]]; auto.
  - intros a Ha. apply in_app_or in Ha as [Ha | [<- | []]]; auto.
  - rewrite map_app. apply NoDup_snoc; [exact AU|].
    cbn [map]. rewrite Hid. apply next_id_not_in.
Qed.

Lemma create_post_keeps_store_ok {U : unicode_database}
  (coerce_text coerce_integer : pyval -> outcome sqlval) (now : string)
  (data : pyval) (db : database) :
  store_ok db ->
  store_ok (snd (serve (create_post coerce_text coerce_integer now data) db)).
Proof.
  intros OK.
  destruct (create_post_result coerce_text coerce_integer now data db)
    as [E | [E | [row [E (Hid & Hcat & Ht & Ha & _)]]]]; rewrite E;
    try exact OK.
  destruct OK as [NU NP PV AU PU PO]. cbn [snd].
  constructor; cbn [authors posts]; try assumption.
  - rewrite map_app. apply NoDup_snoc; [exact PU|].
    cbn [map]. rewrite Hid. apply next_id_not_in.
  - intros p Hp. apply in_app_or in Hp as [Hp | [<- | []]]; auto.
Qed.

Lemma serve_get_unchanged {U : unicode_database} (db : database) (r : request) :
  match r with
  | PostAuthors _ _ | PostPosts _ _ => True
  | _ => forall ct ci, snd (serve (dispatch ct ci r) db) = db
  end.
Proof.
  destruct r; try exact I; intros ct ci; cbn [dispatch].
  - reflexivity.
  - unfold serve. now rewrite get_authors_answer.
  - apply get_author_by_id_store.
  - unfold serve. now rewrite get_posts_answer.
  - apply get_post_by_id_store.
Qed.

Lemma dispatch_keeps_store_ok {U : unicode_database}
  (coerce_text coerce_integer : pyval -> outcome sqlval) (r : request)
  (db : database) :
  store_ok db ->
  store_ok (snd (serve (dispatch coerce_text coerce_integer r) db)).
Proof.
  intros OK. pose proof (serve_get_unchanged db r) as G.
  destruct r; try (rewrite G; exact OK).
  - now apply create_author_keeps_store_ok.
  - now apply create_post_keeps_store_ok.
Qed.

Lemma run_cons {U : unicode_database} (coerce_text coerce_integer : pyval -> outcome sqlval)
  (r : request) (rs : list request) (db : database) :
  run coerce_text coerce_integer (r :: rs) db
  = (fst (serve (dispatch coerce_text coerce_integer r) db)
     :: fst (run coerce_text coerce_integer rs
               (snd (serve (dispatch coerce_text coerce_integer r) db))),
     snd (run coerce_text coerce_integer rs
            (snd (serve (dispatch coerce_text coerce_integer r) db)))).
Proof.
  cbn [run]. destruct (serve _ db) as [resp db']. cbn [fst snd].
  now destruct (run coerce_text coerce_integer rs db').
Qed.

(** X13.  Whatever requests are served, in whatever order and with
    whatever bodies, a store that satisfies the declared constraints
    still satisfies them afterwards: author names present and pairwise
    different, ids pairwise different in both tables, phone numbers NULL
    or ten decimal digits, every post with a title, an author_id and a
    category that is Fiction or Non-Fiction.  The empty store satisfies
    them, so every store the application reaches does. *)
Theorem run_keeps_store_ok {U : unicode_database}
  (coerce_text coerce_integer : pyval -> outcome sqlval)
  (rs : list request) (db : database) :
  store_ok db -> store_ok (snd (run coerce_text coerce_integer rs db)).
Proof.
  revert db. induction rs as [|r rs IH]; intros db OK; [exact OK|].
  rewrite run_cons. cbn [snd]. apply IH. now apply dispatch_keeps_store_ok.
Qed.

Lemma run_keeps_store_ok_witness :
  store_ok (snd (run refuse refuse
                   [PostAuthors "2024-01-01 00:00:00" author_ann;
                    PostAuthors "2024-01-02 00:00:00" author_ann_with_phone;
                    PostPosts "2024-01-03 00:00:00" post_for_author_999;
                    GetAuthors; GetPost 1]
                   empty_db)).
Proof.
  apply (@run_keeps_store_ok unicode_14_0 refuse refuse). exact store_ok_empty.
Defined.

Lemma dispatch_appends {U : unicode_database}
  (coerce_text coerce_integer : pyval -> outcome sqlval) (r : request)
  (db : database) :
  exists new_authors new_posts,
    authors (snd (serve (dispatch coerce_text coerce_integer r) db))
    = authors db ++ new_authors
    /\ posts (snd (serve (dispatch coerce_text coerce_integer r) db))
       = posts db ++ new_posts
    /\ List.length new_authors + List.length new_posts
       = created [fst (serve (dispatch coerce_text coerce_integer r) db)].
Proof.
  assert (forall resp, status resp <> 201 ->
            exists new_authors new_posts : _,
              authors db = authors db ++ new_authors
              /\ posts db = posts db ++ new_posts
              /\ List.length new_authors + List.length new_posts
                 = created [resp]) as Same.
  { intros resp H. exists [], []. rewrite !app_nil_r.
    split; [reflexivity|]. split; [reflexivity|].
    unfold created. cbn [filter].
    destruct (Nat.eqb_spec (status resp) 201); [contradiction | reflexivity]. }
  destruct r; cbn [dispatch].
  - apply Same. discriminate.
  - unfold serve. rewrite get_authors_answer. apply Same. discriminate.
  - rewrite get_author_by_id_store. apply Same.
    unfold serve. rewrite get_author_by_id_answer.
    destruct (query_get_author (working (begin db)) id) as [[a|]|e];
      discriminate.
  - destruct (create_author_result coerce_text coerce_integer now data db)
      as [E | [E | [row [E _]]]]; rewrite E;
      try (apply Same; discriminate).
    exists [row], []. cbn [snd authors posts]. rewrite app_nil_r.
    repeat split.
  - unfold serve. rewrite get_posts_answer. apply Same. discriminate.
  - rewrite get_post_by_id_store. apply Same.
    unfold serve. rewrite get_post_by_id_answer.
    destruct (query_get_post (working (begin db)) id) as [[p|]|e];
      discriminate.
  - destruct (create_post_result coerce_text coerce_integer now data db)
      as [E | [E | [row [E _]]]]; rewrite E;
      try (apply Same; discriminate).
    exists [], [row]. cbn [snd authors posts]. rewrite app_nil_r.
    repeat split.
Qed.

(** X14.  A run of requests answers each of them and only ever appends
    to the store: the rows that were there are still there, unchanged and
    in place, and the number of rows added to the two tables is the
    number of 201 answers.  No request deletes or rewrites a row. *)
Theorem run_only_appends {U : unicode_database}
  (coerce_text coerce_integer : pyval -> outcome sqlval)
  (rs : list request) (db : database) :
  List.length (fst (run coerce_text coerce_integer rs db)) = List.length rs
  /\ exists new_authors new_posts,
       authors (snd (run coerce_text coerce_integer rs db))
       = authors db ++ new_authors
       /\ posts (snd (run coerce_text coerce_integer rs db))
          = posts db ++ new_posts
       /\ List.length new_authors + List.length new_posts
          = created (fst (run coerce_text coerce_integer rs db)).
Proof.
  revert db. induction rs as [|r rs IH]; intros db.
  - split; [reflexivity|]. exists [], []. rewrite !app_nil_r. repeat split.
  - rewrite run_cons. cbn [fst snd List.length].
    destruct (IH (snd (serve (dispatch coerce_text coerce_integer r) db)))
      as (L & na2 & np2 & A2 & P2 & C2).
    destruct (dispatch_appends coerce_text coerce_integer r db)
      as (na1 & np1 & A1 & P1 & C1).
    split; [now rewrite L|].
    exists (na1 ++ na2), (np1 ++ np2).
    rewrite A2, P2, A1, P1, <- !app_assoc.
    split; [reflexivity|]. split; [reflexivity|].
    rewrite !length_app. unfold created in *. cbn [filter] in *.
    destruct (status _ =? 201)%nat; cbn [List.length] in *; lia.
Qed.

(** ** POST bodies that validation or the columns refuse *)

(** X15.  How POST /authors answers an object body by its fields, on every
    store.  A missing or falsy name is answered 400 whatever phone_number
    is, because the name is validated first; with a name, a phone_number
    string that is not ten decimal digits is answered 400, and a
    phone_number that is neither absent nor a string (a JSON number, say)
    is answered 500.  In all three cases the store is unchanged. *)
Theorem create_author_rejections {U : unicode_database}
  (coerce_text coerce_integer : pyval -> outcome sqlval) (now : string)
  (d : list (string * pyval)) (db : database) :
  d <> [] ->
  (truthy (get_or_none d "name") = false ->
   serve (create_author coerce_text coerce_integer now (PDict d)) db
   = (answer_400, db))
  /\ (truthy (get_or_none d "name") = true ->
      forall s, get_or_none d "phone_number" = PStr s -> ~ ten_digits s ->
      serve (create_author coerce_text coerce_integer now (PDict d)) db
      = (answer_400, db))
  /\ (truthy (get_or_none d "name") = true ->
      get_or_none d "phone_number" <> PNone ->
      (forall s, get_or_none d "phone_number" <> PStr s) ->
      serve (create_author coerce_text coerce_integer now (PDict d)) db
      = (answer_500, db)).
Proof.
  intros Hd. unfold serve. rewrite (create_author_on_dict _ _ _ _ Hd).
  unfold AuthorModel.new, Author.validate_name. split; [|split].
  - intros ->. reflexivity.
  - intros -> s -> Hs. cbn [negb bind].
    destruct (validate_phone_number_str "phone_number" s) as [R|R].
    + exfalso. apply Hs. eapply validate_phone_number_digits, R.
    + rewrite R. reflexivity.
  - intros -> Hn Hs. cbn [negb bind].
    destruct (get_or_none d "phone_number") as [|b|z|s|l|d'];
      try reflexivity.
    + now destruct Hn.
    + now destruct (Hs s).
Qed.

Lemma create_author_rejections_witness :
  serve (create_author refuse refuse "2024-01-01 00:00:00"
           (PDict [("phone_number", PStr "5551234567")])) ann_db
  = (answer_400, ann_db)
  /\ serve (create_author refuse refuse "2024-01-01 00:00:00"
              (PDict [("name", PStr "Bob");
                      ("phone_number", PStr "555-123-4567")])) ann_db
     = (answer_400, ann_db)
  /\ serve (create_author refuse refuse "2024-01-01 00:00:00"
              (PDict [("name", PStr "Bob");
                      ("phone_number", PInt 5551234567)])) ann_db
     = (answer_500, ann_db).
Proof.
  split; [|split].
  - apply (@create_author_rejections unicode_14_0 refuse refuse "2024-01-01 00:00:00"
             [("phone_number", PStr "5551234567")] ann_db).
    + discriminate.
    + reflexivity.
  - apply (@create_author_rejections unicode_14_0 refuse refuse "2024-01-01 00:00:00"
             [("name", PStr "Bob"); ("phone_number", PStr "555-123-4567")]
             ann_db) with (s := "555-123-4567").
    + discriminate.
    + reflexivity.
    + reflexivity.
    + intros [L _]. discriminate L.
  - apply (@create_author_rejections unicode_14_0 refuse refuse "2024-01-01 00:00:00"
             [("name", PStr "Bob"); ("phone_number", PInt 5551234567)]
             ann_db).
    + discriminate.
    + reflexivity.
    + discriminate.
    + intros s. discriminate.
Defined.



Lemma validate_title_without_marker (key t : string) :
  (forall m, In m ["Won't Believe"; "Secret"; "Top"; "Guess"] -> ~ occurs m t) ->
  exists msg, Post.validate_title key (PStr t) = Raise (ValueError msg).
Proof.
  intros H. rewrite validate_title_str.
  destruct (existsb _ Post.clickbait_keywords) eqn:E; [|eexists; reflexivity].
  apply existsb_exists in E as [m [Hin Hc]].
  apply contains_occurs in Hc. now destruct (H m Hin).
Qed.

(** X17.  How POST /posts answers an object body by its title and content,
    on every store and whatever the remaining fields are.  A title string
    without a marker is answered 400; a title that is a number is answered
    500; with an accepted title, a content string shorter than 250
    characters is answered 400.  The store is unchanged each time. *)
Theorem create_post_rejections
  (coerce_text coerce_integer : pyval -> outcome sqlval) (now : string)
  (d : list (string * pyval)) (db : database) :
  d <> [] ->
  (forall t, get_or_none d "title" = PStr t ->
             (forall m, In m ["Won't Believe"; "Secret"; "Top"; "Guess"] ->
                        ~ occurs m t) ->
             serve (create_post coerce_text coerce_integer now (PDict d)) db
             = (answer_400, db))
  /\ (forall z, get_or_none d "title" = PInt z ->
                serve (create_post coerce_text coerce_integer now (PDict d)) db
                = (answer_500, db))
  /\ (forall c,
         Post.validate_title "title" (get_or_none d "title")
         = Return (get_or_none d "title") ->
         get_or_none d "content" = PStr c -> String.length c < 250 ->
         serve (create_post coerce_text coerce_integer now (PDict d)) db
         = (answer_400, db)).
Proof.
  intros Hd. unfold serve. rewrite (create_post_on_dict _ _ _ _ Hd).
  unfold PostModel.new. split; [|split].
  - intros t -> Hm.
    destruct (validate_title_without_marker "title" Hm) as [msg ->].
    reflexivity.
  - intros z ->. reflexivity.
  - intros c -> -> Hc. cbn [bind]. unfold Post.validate_content.
    simpl truthy. rewrite negb_involutive.
    destruct (c =? "") eqn:E; [reflexivity|]. cbn [py_len bind].
    destruct (Nat.ltb_spec (String.length c) 250); [reflexivity | lia].
Qed.

Lemma create_post_rejections_witness :
  let d := [("title", PStr "A Nice Day"); ("content", PStr "short")] in
  (forall t, get_or_none d "title" = PStr t ->
             (forall m, In m ["Won't Believe"; "Secret"; "Top"; "Guess"] ->
                        ~ occurs m t) ->
             serve (create_post refuse refuse "2024-01-01 00:00:00" (PDict d))
               ann_db
             = (answer_400, ann_db))
  /\ (forall z, get_or_none d "title" = PInt z ->
                serve (create_post refuse refuse "2024-01-01 00:00:00" (PDict d))
                  ann_db
                = (answer_500, ann_db))
  /\ (forall c,
         Post.validate_title "title" (get_or_none d "title")
         = Return (get_or_none d "title") ->
         get_or_none d "content" = PStr c -> String.length c < 250 ->
         serve (create_post refuse refuse "2024-01-01 00:00:00" (PDict d))
           ann_db
         = (answer_400, ann_db)).
Proof.
  apply (@create_post_rejections refuse refuse "2024-01-01 00:00:00"
           [("title", PStr "A Nice Day"); ("content", PStr "short")] ann_db).
  discriminate.
Defined.

(** ** Names stay taken, posts show under their author *)

Lemma run_appends_authors {U : unicode_database}
  (coerce_text coerce_integer : pyval -> outcome sqlval)
  (rs : list request) (db : database) :
  exists new_authors,
    authors (snd (run coerce_text coerce_integer rs db))
    = authors db ++ new_authors.
Proof.
  revert db. induction rs as [|r rs IH]; intros db.
  - exists []. now rewrite app_nil_r.
  - rewrite run_cons. cbn [snd].
    destruct (IH (snd (serve (dispatch coerce_text coerce_integer r) db)))
      as (na2 & A2).
    destruct (dispatch_appends coerce_text coerce_integer r db)
      as (na1 & _ & A1 & _).
    exists (na1 ++ na2). now rewrite A2, A1, app_assoc.
Qed.

Lemma create_author_taken_name {U : unicode_database}
  (coerce_text coerce_integer : pyval -> outcome sqlval) (now : string)
  (data : pyval) (db : database) (name : pyval) (stored : sqlval) :
  dict_get data "name" = Return name ->
  to_text coerce_text name = Return stored ->
  In stored (map a_name (authors db)) ->
  status (fst (serve (create_author coerce_text coerce_integer now data) db))
  <> 201.
Proof.
  intros Hn Ht Hin H. rewrite serve_fst in H.
  apply create_author_201 in H as (d & o & row & db' & -> & Hnew & Hins & _).
  apply dict_get_returns in Hn as (d0 & E0 & ->). injection E0 as <-.
  apply author_new_returns in Hnew as (-> & _ & _).
  apply insert_author_row in Hins as (_ & _ & Htext & _ & _ & Hfresh & _).
  cbn [AuthorModel.name] in Htext. rewrite Ht in Htext.
  injection Htext as ->. contradiction.
Qed.

(** X18.  A name stays taken.  Once POST /authors has answered 201 for a
    name, then after any further requests whatever, a POST /authors that
    carries the same name is not answered 201: no run stores two authors
    under one name. *)
Theorem author_name_stays_taken {U : unicode_database}
  (coerce_text coerce_integer : pyval -> outcome sqlval) (now1 now2 : string)
  (d1 d2 name : pyval) (between : list request) (db : database) :
  dict_get d1 "name" = Return name ->
  dict_get d2 "name" = Return name ->
  status (fst (serve (create_author coerce_text coerce_integer now1 d1) db))
  = 201 ->
  let db1 := snd (serve (create_author coerce_text coerce_integer now1 d1) db) in
  let db2 := snd (run coerce_text coerce_integer between db1) in
  status (fst (serve (create_author coerce_text coerce_integer now2 d2) db2))
  <> 201
  /\ snd (serve (create_author coerce_text coerce_integer now2 d2) db2) = db2.
Proof.
  intros Hn1 Hn2 H201 db1 db2.
  assert (exists stored, to_text coerce_text name = Return stored
                         /\ In stored (map a_name (authors db2)))
    as (stored & Ht & Hin).
  { subst db2 db1. rewrite serve_fst in H201. rewrite (serve_snd _ db).
    apply create_author_201 in H201
      as (d & o & row & db' & -> & Hnew & Hins & ->).
    apply dict_get_returns in Hn1 as (d0 & E0 & ->). injection E0 as <-.
    apply author_new_returns in Hnew as (-> & _ & _).
    apply insert_author_row in Hins as (-> & _ & Htext & _).
    cbn [AuthorModel.name] in Htext.
    exists (a_name row). split; [exact Htext|].
    destruct (run_appends_authors coerce_text coerce_integer between
                {| authors := authors db ++ [row]; posts := posts db |})
      as (na & ->).
    cbn [authors]. rewrite !map_app. apply in_or_app. left.
    apply in_or_app. right. now left. }
  assert (status (fst (serve (create_author coerce_text coerce_integer now2 d2)
                         db2)) <> 201) as Hno
    by (eapply create_author_taken_name; eassumption).
  split; [exact Hno|].
  destruct (create_author_result coerce_text coerce_integer now2 d2 db2)
    as [E | [E | [row [E _]]]]; rewrite E in Hno |- *;
    [reflexivity | reflexivity | now destruct Hno].
Qed.

Lemma author_name_stays_taken_witness :
  let db1 := snd (serve (create_author refuse refuse "2024-01-01 00:00:00"
                           author_ann) empty_db) in
  let db2 := snd (run refuse refuse
                    [PostPosts "2024-01-02 00:00:00" post_for_author_999;
                     GetAuthors] db1) in
  status (fst (serve (create_author refuse refuse "2024-01-03 00:00:00"
                        author_ann_with_phone) db2)) <> 201
  /\ snd (serve (create_author refuse refuse "2024-01-03 00:00:00"
                   author_ann_with_phone) db2) = db2.
Proof.
  apply (@author_name_stays_taken unicode_14_0 refuse refuse
           "2024-01-01 00:00:00" "2024-01-03 00:00:00"
           author_ann author_ann_with_phone (PStr "Ann")
           [PostPosts "2024-01-02 00:00:00" post_for_author_999; GetAuthors]
           empty_db); reflexivity.
Defined.

Lemma create_post_201 (coerce_text coerce_integer : pyval -> outcome sqlval)
  (now : string) (data : pyval) (db : database) :
  status (fst (serve (create_post coerce_text coerce_integer now data) db)) = 201 ->
  exists d o row db',
    data = PDict d
    /\ PostModel.new (get_or_none d "title") (get_or_none d "content")
         (get_or_none d "summary") (get_or_none d "category")
         (get_or_none d "author_id") = Return o
    /\ insert_post coerce_text coerce_integer foreign_keys now o db
       = Return (row, db')
    /\ serve (create_post coerce_text coerce_integer now data) db
       = (make_response (post_view db' row) 201, db').
Proof.
  intros H. unfold serve in *.
  destruct (truthy data) eqn:T.
  2:{ rewrite (create_post_falsy _ _ _ _ _ T) in H. discriminate H. }
  destruct data as [|b|z|t|l|d];
    try (rewrite (create_post_not_object _ _ _ _ T ltac:(discriminate)) in H;
         discriminate H).
  assert (d <> []) as Hd by (intros ->; discriminate T).
  rewrite (create_post_on_dict _ _ _ _ Hd) in H |- *.
  destruct (PostModel.new _ _ _ _ _) as [o|e] eqn:En.
  - destruct (insert_post coerce_text coerce_integer foreign_keys now o db)
      as [[row db']|e] eqn:Ei.
    + exists d, o, row, db'. repeat split; assumption || reflexivity.
    + destruct (create_post_except_answers e
                  {| committed := db; working := db;
                     objects := [Pending (NewPost o)] |}) as [E | E];
        rewrite E in H; discriminate H.
  - destruct (create_post_except_answers e (begin db)) as [E | E];
      rewrite E in H; discriminate H.
Qed.

Lemma insert_post_author_id
  (coerce_text coerce_integer : pyval -> outcome sqlval) (fk : bool)
  (now : string) (o : PostModel.t) (db db' : database) (row : post_row) :
  insert_post coerce_text coerce_integer fk now o db = Return (row, db') ->
  to_integer coerce_integer (PostModel.author_id o) = Return (p_author_id row).
Proof.
  unfold insert_post.
  destruct (to_text coerce_text (PostModel.title o)) as [t|e]; [|discriminate].
  destruct (to_text coerce_text (PostModel.content o)) as [c|e]; [|discriminate].
  destruct (to_text coerce_text (PostModel.category o)) as [g|e]; [|discriminate].
  destruct (to_text coerce_text (PostModel.summary o)) as [s|e]; [|discriminate].
  destruct (to_integer coerce_integer (PostModel.author_id o)) as [a|e];
    [|discriminate].
  cbn [bind]. destruct (is_null t); [discriminate|].
  destruct (is_null a); [discriminate|].
  destruct (fk && _); [discriminate|].
  intros E. now injection E as <- <-.
Qed.

(** X19.  A created post shows under its author.  Whenever POST /posts
    answers 201 for a body whose author_id is the integer id of a stored
    author, the posts of that author are afterwards the ones it had,
    followed by the new row, and the serialized author lists the new post
    last, without a nested author; the posts of every other author are
    what they were. *)
Theorem created_post_shows_under_its_author
  (coerce_text coerce_integer : pyval -> outcome sqlval) (now : string)
  (d : list (string * pyval)) (db : database) (z : Z) :
  get_or_none d "author_id" = PInt z ->
  status (fst (serve (create_post coerce_text coerce_integer now (PDict d)) db))
  = 201 ->
  let db' := snd (serve (create_post coerce_text coerce_integer now (PDict d))
                    db) in
  exists row,
    posts db' = posts db ++ [row]
    /\ p_author_id row = SqlInteger z
    /\ (forall a, a_id a = z ->
                  posts_of db' a = posts_of db a ++ [row]
                  /\ exists items,
                       author_view db' a = PDict items
                       /\ lookup "posts" items
                          = Some (PList (map post_without_author
                                           (posts_of db a ++ [row]))))
    /\ (forall a, a_id a <> z -> posts_of db' a = posts_of db a).
Proof.
  intros Ha H db'. subst db'.
  apply create_post_201 in H as (d0 & o & row & db' & E0 & Hnew & Hins & ->).
  injection E0 as <-. rewrite Ha in Hnew.
  apply post_new_returns in Hnew as (-> & _).
  pose proof (insert_post_author_id _ _ _ _ _ _ Hins) as Haid.
  apply insert_post_row in Hins as (-> & _).
  cbn [PostModel.author_id to_integer] in Haid.
  destruct (in_int64 z); [|discriminate Haid]. injection Haid as Haid.
  exists row. cbn [snd posts]. split; [reflexivity|].
  split; [now symmetry|]. split.
  - intros a Hz.
    assert (posts_of {| authors := authors db; posts := posts db ++ [row] |} a
            = posts_of db a ++ [row]) as P.
    { unfold posts_of. cbn [posts]. rewrite filter_app. cbn [filter].
      rewrite <- Haid, Hz, sqlval_eqb_refl. reflexivity. }
    split; [exact P|]. eexists. split; [reflexivity|].
    rewrite <- P. reflexivity.
  - intros a Hz. unfold posts_of. cbn [posts]. rewrite filter_app.
    cbn [filter]. rewrite <- Haid. cbn [sqlval_eqb].
    destruct (Z.eqb_spec z (a_id a)) as [E|_]; [now destruct Hz|].
    now rewrite app_nil_r.
Qed.

Lemma created_post_shows_under_its_author_witness :
  let d := [("title", PStr "Top Secret"); ("content", PStr long_content);
            ("category", PStr "Fiction"); ("author_id", PInt 1)] in
  let db' := snd (serve (create_post refuse refuse "2024-01-05 00:00:00"
                           (PDict d)) ann_db) in
  exists row,
    posts db' = posts ann_db ++ [row]
    /\ p_author_id row = SqlInteger 1
    /\ (forall a, a_id a = 1%Z ->
                  posts_of db' a = posts_of ann_db a ++ [row]
                  /\ exists items,
                       author_view db' a = PDict items
                       /\ lookup "posts" items
                          = Some (PList (map post_without_author
                                           (posts_of ann_db a ++ [row]))))
    /\ (forall a, a_id a <> 1%Z -> posts_of db' a = posts_of ann_db a).
Proof.
  apply (@created_post_shows_under_its_author refuse refuse
           "2024-01-05 00:00:00"
           [("title", PStr "Top Secret"); ("content", PStr long_content);
            ("category", PStr "Fiction"); ("author_id", PInt 1)] ann_db 1%Z);
    reflexivity.
Defined.
